(** * Policy evaluation of the AI / zkVM payment gate

    Shallow embedding of the policy-evaluation core of the repository:
    - [src/src/lib/integrated-ai-zkvm.ts]   ([Module IntegratedAIZkVM])
    - [src/src/lib/zkvm-policy-engine.ts]   ([Module ZkVMPolicyEngine])
    - [src/src/lib/zkp-verifier.ts]         ([Module ZKPVerifier])

    JavaScript numbers are modelled as [Z] (the code only ever stores
    integers in them), strings as [String.string], JS objects used as
    dictionaries as stdpp [gmap string _].  Effects that the code reaches
    through [fs] and [child_process] (file existence, writing the parameter
    file, the outcome of [execAsync]) are inputs of an explicit
    environment record, and the object heap is modelled where aliasing
    matters (policy edits). *)

From Stdlib Require Import String Ascii ZArith List Bool.
From stdpp Require Import base gmap strings list.
Import ListNotations.
Local Open Scope string_scope.
Open Scope Z_scope.

(* ------------------------------------------------------------------ *)
(** ** JavaScript helpers *)

Module JS.

(** [s.startsWith(p)] *)
Fixpoint startsWith (s p : string) : bool :=
  match p, s with
  | EmptyString, _ => true
  | String c p', String d s' => Ascii.eqb c d && startsWith s' p'
  | String _ _, EmptyString => false
  end.

(** [s.includes(p)] *)
Fixpoint includes (s p : string) : bool :=
  startsWith s p ||
  match s with
  | EmptyString => false
  | String _ s' => includes s' p
  end.

(** [xs.includes(x)] on an array of strings (SameValueZero = string
    equality). *)
Definition arrIncludes (xs : list string) (x : string) : bool :=
  existsb (String.eqb x) xs.

(** [xs.includes(x)] on an array of numbers. *)
Definition arrIncludesZ (xs : list Z) (x : Z) : bool :=
  existsb (Z.eqb x) xs.

Definition isDigit (c : ascii) : bool :=
  let n := nat_of_ascii c in (48 <=? n)%nat && (n <=? 57)%nat.

(** The maximal run of digits at the start of [s] (the greedy [\d+]). *)
Fixpoint leadingDigits (s : string) : string :=
  match s with
  | String c s' => if isDigit c then String c (leadingDigits s') else EmptyString
  | EmptyString => EmptyString
  end.

Fixpoint dropN (n : nat) (s : string) : string :=
  match n, s with
  | O, _ => s
  | S n', String _ s' => dropN n' s'
  | S _, EmptyString => EmptyString
  end.

(** [s.match(/<lit>(\d+)/)] : the capture group of the leftmost match of a
    literal prefix [lit] followed by one or more digits, [None] for
    [null]. *)
Fixpoint matchDigitsAfter (lit s : string) : option string :=
  let here :=
    if startsWith s lit then
      match leadingDigits (dropN (String.length lit) s) with
      | EmptyString => None
      | ds => Some ds
      end
    else None in
  match here with
  | Some ds => Some ds
  | None =>
      match s with
      | EmptyString => None
      | String _ s' => matchDigitsAfter lit s'
      end
  end.

(** [parseInt(ds)] on a non-empty string of decimal digits. *)
Fixpoint parseDigitsAcc (acc : Z) (s : string) : Z :=
  match s with
  | EmptyString => acc
  | String c s' => parseDigitsAcc (10 * acc + (Z.of_nat (nat_of_ascii c) - 48)) s'
  end.

Definition parseInt (ds : string) : Z := parseDigitsAcc 0 ds.

(** [s.split(sep)] for a one-character separator. *)
Fixpoint splitOn (sep : ascii) (s : string) : list string :=
  match s with
  | EmptyString => [EmptyString]
  | String c s' =>
      match splitOn sep s' with
      | [] => [] (* unreachable: the result is never empty *)
      | w :: ws => if Ascii.eqb c sep then EmptyString :: w :: ws
                   else String c w :: ws
      end
  end.

Definition newline : ascii := ascii_of_nat 10.

(** The one-character string made of a double quote. *)
Definition dquote : string := String (ascii_of_nat 34) EmptyString.

(** Decimal rendering of a number, as in a template literal [`${n}`]. *)
Fixpoint natDigits (fuel : nat) (n : N) (acc : string) : string :=
  match fuel with
  | O => acc
  | S f =>
      let acc' := String (ascii_of_N (48 + N.modulo n 10)) acc in
      if (n <? 10)%N then acc' else natDigits f (N.div n 10) acc'
  end.

Definition showZ (z : Z) : string :=
  let n := Z.to_N (Z.abs z) in
  let ds := natDigits (N.size_nat n) n EmptyString in
  if Z.ltb z 0 then String.append "-" ds else ds.

(** Truthiness of the values that a call of a dictionary entry can
    produce. *)
Inductive JSVal :=
| JBool (b : bool)
| JObj                     (* some object: truthy *)
| JStr (s : string).

Definition truthy (v : JSVal) : bool :=
  match v with
  | JBool b => b
  | JObj => true
  | JStr s => negb (String.eqb s "")
  end.

(** A call either returns a value or throws. *)
Inductive Completion :=
| Returns (v : JSVal)
| Throws.

(** The properties every plain object literal inherits from
    [Object.prototype]: [obj[k]] yields a (truthy) value for these keys
    even when [obj] has no own property [k]. *)
Definition objectProtoKeys : list string :=
  [ "constructor"; "__defineGetter__"; "__defineSetter__";
    "hasOwnProperty"; "__lookupGetter__"; "__lookupSetter__";
    "isPrototypeOf"; "propertyIsEnumerable"; "toString"; "valueOf";
    "__proto__"; "toLocaleString" ].

Definition isProtoKey (k : string) : bool := arrIncludes objectProtoKeys k.

(** Calling the inherited member [k] as a plain function [f(arg)] with an
    object argument, in strict code (class bodies are strict), so [this]
    is [undefined]:
    - [Object(arg)] returns [arg] itself;
    - [Object.prototype.toString] returns ["[object Undefined]"];
    - [__proto__] yields [Object.prototype], which is not callable;
    - every other member starts with [ToObject(this)], a [TypeError]. *)
Definition callProtoMember (k : string) : Completion :=
  if String.eqb k "constructor" then Returns JObj
  else if String.eqb k "toString" then Returns (JStr "[object Undefined]")
  else Throws.

(** [s.toLowerCase()] on the ASCII letters; the bytes of other characters
    are kept.  (The only non-ASCII characters whose lower case contains an
    ASCII letter are U+0130, giving an [i] followed by a combining dot, and
    the Kelvin sign, giving [k]; neither can complete the keywords searched
    by [categorizeVendor].) *)
Definition lowerAscii (c : ascii) : ascii :=
  let n := nat_of_ascii c in
  if (65 <=? n)%nat && (n <=? 90)%nat then ascii_of_nat (n + 32) else c.

Fixpoint toLowerCase (s : string) : string :=
  match s with
  | EmptyString => EmptyString
  | String c s' => String (lowerAscii c) (toLowerCase s')
  end.

(** [ToInt32]: the 32-bit two's complement reading of an integer. *)
Definition toInt32 (z : Z) : Z :=
  let m := z mod 2 ^ 32 in if Z.leb (2 ^ 31) m then m - 2 ^ 32 else m.

(** [a | b] on numbers holding integers. *)
Definition bitOr (a b : Z) : Z := toInt32 (Z.lor (toInt32 a) (toInt32 b)).

(** [a << b]: the shift count is [ToUint32(b) & 31], i.e. [b mod 32]. *)
Definition shl (a b : Z) : Z := toInt32 (Z.shiftl (toInt32 a) (b mod 32)).

End JS.

(* ------------------------------------------------------------------ *)
(** ** Local time of [Date]

    [new Date(ms).getHours()] and [getDay()] read the host's local time.
    The local zone is modelled as a fixed offset from UTC, in seconds
    (no daylight-saving changes); the epoch day 1970-01-01 is a
    Thursday (day 4). *)

Module LocalTime.

Definition getHours (offset ms : Z) : Z :=
  ((Z.div ms 1000 + offset) mod 86400) / 3600.

Definition getDay (offset ms : Z) : Z :=
  ((Z.div ms 1000 + offset) / 86400 + 4) mod 7.

End LocalTime.

(* ------------------------------------------------------------------ *)
(** ** [integrated-ai-zkvm.ts] *)

Module IntegratedAIZkVM.

(** A category entry of [customRules]; [?:] fields are options. *)
Record CategoryRule := {
  maxAmount : option Z;
  requireApproval : option bool;
  additionalChecks : option (list string);
}.

Inductive RuleAction := Approve | Reject | RequireApproval.

Record ConditionalRule := {
  condition : string;
  action : RuleAction;
  parameters : list (string * string);
}.

Record Rules := {
  maxPerPayment : Z;
  maxPerDay : Z;
  maxPerWeek : Z;
  allowedHoursStart : Z;
  allowedHoursEnd : Z;
  allowedWeekdays : list Z;
  allowedVendors : list string;
  blockedVendors : list string;
  customRules : gmap string CategoryRule;
  conditionalRules : list ConditionalRule;
}.

Record Metadata := {
  createdAt : string;
  updatedAt : string;
  author : string;
}.

Record DynamicPolicy := {
  id : string;
  version : string;
  rules : Rules;
  metadata : Metadata;
}.

Record AIExtracted := {
  invoiceNumber : option string;
  dueDate : option string;
  originalEmail : string;
}.

(** [PaymentIntent]; the extraction confidence (a float) is not read by the
    evaluation and is left out. *)
Record PaymentIntent := {
  amount : Z;
  recipient : string;
  vendor : string;
  category : string;
  timestamp : Z;
  aiExtracted : AIExtracted;
}.

(** [Omit<ZkVMEvaluation, 'proofGenerated' | 'processingTime'>] *)
Record PreEvaluation := {
  pApproved : bool;
  pRiskScore : Z;
  pViolationCount : Z;
  pViolations : list string;
  pAppliedRules : list string;
}.

(** [ZkVMEvaluation] *)
Record ZkVMEvaluation := {
  approved : bool;
  riskScore : Z;
  violationCount : Z;
  violations : list string;
  appliedRules : list string;
  proofGenerated : bool;
  processingTime : Z;
}.

(** [Partial<ZkVMEvaluation>] as produced by [executeZkVMWithParams]. *)
Record ZkVMPartial := {
  zApproved : option bool;
  zRiskScore : option Z;
  zViolationCount : option Z;
  zViolations : option (list string);
  zkpReceipt : option string;
}.

(** The evaluation context built by [evaluateCondition]. *)
Record CondContext := {
  ctxAmount : Z;
  ctxVendor : string;
  ctxCategory : string;
  ctxHour : Z;
  ctxWeekday : Z;
  ctxAllowedVendors : list string;
  ctxMaxPerPayment : Z;
}.

(** The own entries of the [safeConditions] object literal. *)
Definition safeConditionsOwn (k : string) : option (CondContext -> bool) :=
  if String.eqb k "amount > 200000" then Some (fun ctx => 200000 <? ctxAmount ctx)
  else if String.eqb k "amount > 100000" then Some (fun ctx => 100000 <? ctxAmount ctx)
  else if String.eqb k "amount > 50000" then Some (fun ctx => 50000 <? ctxAmount ctx)
  else if String.eqb k "vendor not in allowedVendors" then
    Some (fun ctx => negb (JS.arrIncludes (ctxAllowedVendors ctx) (ctxVendor ctx)))
  else if String.eqb k "hour < 9 or hour >= 18" then
    Some (fun ctx => (ctxHour ctx <? 9) || (18 <=? ctxHour ctx))
  else if String.eqb k "weekday in [0, 6]" then
    Some (fun ctx => JS.arrIncludesZ [0; 6] (ctxWeekday ctx))
  else if String.eqb k ("category == " ++ JS.dquote ++ "high-risk" ++ JS.dquote) then
    Some (fun ctx => String.eqb (ctxCategory ctx) "high-risk")
  else None.

(** [safeEvaluateCondition]: [const evaluator = safeConditions[condition];
    return evaluator ? evaluator(context) : false;].  The lookup on the
    object literal also sees the members inherited from
    [Object.prototype]. *)
Definition safeEvaluateCondition (condition : string) (ctx : CondContext)
  : JS.Completion :=
  match safeConditionsOwn condition with
  | Some f => JS.Returns (JS.JBool (f ctx))
  | None =>
      if JS.isProtoKey condition then JS.callProtoMember condition
      else JS.Returns (JS.JBool false)
  end.

Section Evaluation.

(** Offset of the host's local time zone, in seconds. *)
Variable localOffset : Z.

(** [evaluateCondition]: a throw inside is caught and yields [false]. *)
Definition evaluateCondition (condition : string) (intent : PaymentIntent)
  (policy : DynamicPolicy) : JS.JSVal :=
  let ctx := {|
    ctxAmount := amount intent;
    ctxVendor := vendor intent;
    ctxCategory := category intent;
    ctxHour := LocalTime.getHours localOffset (timestamp intent * 1000);
    ctxWeekday := LocalTime.getDay localOffset (timestamp intent * 1000);
    ctxAllowedVendors := allowedVendors (rules policy);
    ctxMaxPerPayment := maxPerPayment (rules policy);
  |} in
  match safeEvaluateCondition condition ctx with
  | JS.Returns v => v
  | JS.Throws => JS.JBool false
  end.

(** [policy.rules.customRules[category]]: an own entry, or otherwise for a
    key inherited from [Object.prototype] a truthy value with no
    [maxAmount]. *)
Definition lookupCategoryRule (cr : gmap string CategoryRule) (k : string)
  : option CategoryRule :=
  match cr !! k with
  | Some r => Some r
  | None =>
      if JS.isProtoKey k
      then Some {| maxAmount := None; requireApproval := None;
                   additionalChecks := None |}
      else None
  end.

(** The mutable locals of [evaluateCustomRules]. *)
Record EvalState := {
  sViolations : list string;
  sAppliedRules : list string;
  sRisk : Z;
}.

Definition pushViolation (msg : string) (w : Z) (s : EvalState) : EvalState :=
  {| sViolations := (sViolations s ++ [msg])%list;
     sAppliedRules := sAppliedRules s;
     sRisk := sRisk s + w |}.

Definition pushApplied (r : string) (s : EvalState) : EvalState :=
  {| sViolations := sViolations s;
     sAppliedRules := (sAppliedRules s ++ [r])%list;
     sRisk := sRisk s |}.

(** One iteration of the conditional-rule loop. *)
Definition conditionalStep (intent : PaymentIntent) (policy : DynamicPolicy)
  (s : EvalState) (cr : ConditionalRule) : EvalState :=
  if JS.truthy (evaluateCondition (condition cr) intent policy) then
    let s := pushApplied ("条件分岐: " ++ condition cr) s in
    match action cr with
    | Reject => pushViolation ("条件分岐による拒否: " ++ condition cr) 30 s
    | RequireApproval =>
        pushViolation ("条件分岐による承認要求: " ++ condition cr) 10 s
    | Approve => s
    end
  else s.

(** Steps 1-4 of [evaluateCustomRules]. *)
Definition staticChecks (intent : PaymentIntent) (policy : DynamicPolicy)
  : EvalState :=
  let r := rules policy in
  let s := {| sViolations := []; sAppliedRules := []; sRisk := 0 |} in
  (* 1. amount limit *)
  let s := if maxPerPayment r <? amount intent then
             pushViolation ("金額上限超過: " ++ JS.showZ (amount intent) ++ " > "
                            ++ JS.showZ (maxPerPayment r)) 30 s
           else s in
  let s := pushApplied "基本金額制限チェック" s in
  (* 2. vendor lists *)
  let s := if (0 <? Z.of_nat (length (allowedVendors r)))
              && negb (JS.arrIncludes (allowedVendors r) (vendor intent)) then
             pushViolation ("未許可ベンダー: " ++ vendor intent) 25 s
           else s in
  let s := if JS.arrIncludes (blockedVendors r) (vendor intent) then
             pushViolation ("ブロックリストのベンダー: " ++ vendor intent) 50 s
           else s in
  let s := pushApplied "ベンダーホワイトリスト/ブラックリストチェック" s in
  (* 3. business hours *)
  let hour := LocalTime.getHours localOffset (timestamp intent * 1000) in
  let s := if (hour <? allowedHoursStart r) || (allowedHoursEnd r <=? hour) then
             pushViolation ("営業時間外: " ++ JS.showZ hour ++ "時") 15 s
           else s in
  let s := pushApplied "営業時間チェック" s in
  (* 4. category rule; [categoryRule.maxAmount && ...] treats 0 as absent *)
  match lookupCategoryRule (customRules r) (category intent) with
  | Some cr =>
      let s := match maxAmount cr with
               | Some m => if negb (Z.eqb m 0) && (m <? amount intent) then
                             pushViolation ("カテゴリ制限超過 (" ++ category intent
                               ++ "): " ++ JS.showZ (amount intent) ++ " > "
                               ++ JS.showZ m) 20 s
                           else s
               | None => s
               end in
      pushApplied ("カスタムルール: " ++ category intent) s
  | None => s
  end.

(** [evaluateCustomRules] *)
Definition evaluateCustomRules (intent : PaymentIntent) (policy : DynamicPolicy)
  : PreEvaluation :=
  let s := fold_left (conditionalStep intent policy)
             (conditionalRules (rules policy)) (staticChecks intent policy) in
  {| pApproved := Nat.eqb (length (sViolations s)) 0;
     pRiskScore := Z.min (sRisk s) 100;
     pViolationCount := Z.of_nat (length (sViolations s));
     pViolations := sViolations s;
     pAppliedRules := sAppliedRules s |}.

End Evaluation.

(** [createDynamicPolicy(userId, customRules)]; [Date.now()] and
    [new Date().toISOString()] are the inputs [nowMs] and [nowIso].  The
    spread [{utilities, software, consulting, ...customRules}] lets the
    caller's entries win: stdpp's union is left-biased. *)
Definition createDynamicPolicy (userId : string) (nowMs : Z) (nowIso : string)
  (userRules : gmap string CategoryRule) : DynamicPolicy :=
  {| id := "policy_" ++ userId ++ "_" ++ JS.showZ nowMs;
     version := "1.0.0";
     rules := {|
       maxPerPayment := 100000;
       maxPerDay := 500000;
       maxPerWeek := 2000000;
       allowedHoursStart := 9;
       allowedHoursEnd := 18;
       allowedWeekdays := [1; 2; 3; 4; 5];
       allowedVendors := [];
       blockedVendors := ["suspicious-vendor.com"];
       customRules := userRules ∪
         <["utilities" := {| maxAmount := Some 50000; requireApproval := Some false;
                             additionalChecks := None |}]>
         (<["software" := {| maxAmount := Some 200000; requireApproval := Some true;
                             additionalChecks := None |}]>
         (<["consulting" := {| maxAmount := Some 500000; requireApproval := Some true;
                               additionalChecks := None |}]> ∅));
       conditionalRules := [
         {| condition := "amount > 200000"; action := RequireApproval;
            parameters := [("reason", "高額支払いのため承認が必要")] |};
         {| condition := "vendor not in allowedVendors"; action := RequireApproval;
            parameters := [("reason", "新規ベンダーのため承認が必要")] |} ];
     |};
     metadata := {| createdAt := nowIso; updatedAt := nowIso; author := userId |};
  |}.

(** *** Policy edits

    [addCustomRule] and [addConditionalRule] assign into the policy object
    they are given and return that same object.  Policies therefore live in
    a heap of objects addressed by references; an edit through a dangling
    reference is a [TypeError] ([None]). *)

Definition loc := positive.
Definition Heap := gmap loc DynamicPolicy.

Definition setCustomRule (c : string) (r : CategoryRule) (nowIso : string)
  (p : DynamicPolicy) : DynamicPolicy :=
  let rs := rules p in
  {| id := id p; version := version p;
     rules := {| maxPerPayment := maxPerPayment rs; maxPerDay := maxPerDay rs;
                 maxPerWeek := maxPerWeek rs;
                 allowedHoursStart := allowedHoursStart rs;
                 allowedHoursEnd := allowedHoursEnd rs;
                 allowedWeekdays := allowedWeekdays rs;
                 allowedVendors := allowedVendors rs;
                 blockedVendors := blockedVendors rs;
                 customRules := <[c := r]> (customRules rs);
                 conditionalRules := conditionalRules rs |};
     metadata := {| createdAt := createdAt (metadata p); updatedAt := nowIso;
                    author := author (metadata p) |} |}.

(** [addCustomRule(policy, category, rule)]:
    [policy.rules.customRules[category] = rule;
     policy.metadata.updatedAt = new Date().toISOString(); return policy;] *)
Definition addCustomRule (h : Heap) (policy : loc) (c : string)
  (r : CategoryRule) (nowIso : string) : option (Heap * loc) :=
  match h !! policy with
  | Some p => Some (<[policy := setCustomRule c r nowIso p]> h, policy)
  | None => None
  end.

Definition pushConditionalRule (cr : ConditionalRule) (nowIso : string)
  (p : DynamicPolicy) : DynamicPolicy :=
  let rs := rules p in
  {| id := id p; version := version p;
     rules := {| maxPerPayment := maxPerPayment rs; maxPerDay := maxPerDay rs;
                 maxPerWeek := maxPerWeek rs;
                 allowedHoursStart := allowedHoursStart rs;
                 allowedHoursEnd := allowedHoursEnd rs;
                 allowedWeekdays := allowedWeekdays rs;
                 allowedVendors := allowedVendors rs;
                 blockedVendors := blockedVendors rs;
                 customRules := customRules rs;
                 conditionalRules := (conditionalRules rs ++ [cr])%list |};
     metadata := {| createdAt := createdAt (metadata p); updatedAt := nowIso;
                    author := author (metadata p) |} |}.

(** [addConditionalRule(policy, condition, action, parameters)]:
    [policy.rules.conditionalRules.push({condition, action, parameters});
     policy.metadata.updatedAt = ...; return policy;] *)
Definition addConditionalRule (h : Heap) (policy : loc) (c : string)
  (a : RuleAction) (params : list (string * string)) (nowIso : string)
  : option (Heap * loc) :=
  match h !! policy with
  | Some p =>
      Some (<[policy := pushConditionalRule
                          {| condition := c; action := a; parameters := params |}
                          nowIso p]> h, policy)
  | None => None
  end.

(** *** Running the zkVM and combining the results *)

(** [executeZkVMWithParams], from the point where [execAsync] resolved with
    [stdout]. *)
Definition executeZkVMWithParams (stdout : string) : ZkVMPartial :=
  let approvedFlag := negb (JS.includes stdout "Approved: false") in
  let riskMatch := JS.matchDigitsAfter "Risk Score: " stdout in
  let violationMatch := JS.matchDigitsAfter "Violations: " stdout in
  {| zApproved := Some approvedFlag;
     zRiskScore := Some (match riskMatch with Some d => JS.parseInt d | None => 0 end);
     zViolationCount :=
       Some (match violationMatch with Some d => JS.parseInt d | None => 0 end);
     zViolations := None;
     zkpReceipt := Some stdout |}.

(** [combineResults] *)
Definition combineResults (pre : PreEvaluation) (zk : ZkVMPartial)
  : PreEvaluation :=
  let combinedApproved := pApproved pre && default false (zApproved zk) in
  let combinedRiskScore := Z.max (pRiskScore pre) (default 0 (zRiskScore zk)) in
  let combinedViolations := (pViolations pre ++ default [] (zViolations zk))%list in
  {| pApproved := combinedApproved;
     pRiskScore := combinedRiskScore;
     pViolationCount := Z.of_nat (length combinedViolations);
     pViolations := combinedViolations;
     pAppliedRules := (pAppliedRules pre ++ ["zkVM暗号学的証明"])%list |}.

(** The outcome of [await execAsync(cmd, { timeout })]: it rejects on a
    missing or non-executable binary, a crash, a non-zero exit status and
    on the timeout; otherwise it resolves with the captured output. *)
Inductive ExecOutcome :=
| ExecRejects
| ExecResolves (stdout stderr : string).

(** What the file system, the child process and the clock do during one
    call of [evaluateWithZkVM]. *)
Record Env := {
  localOffset : Z;             (* host time zone, seconds east of UTC *)
  zkVMBinaryExists : bool;     (* fs.existsSync(this.zkVMPath) *)
  paramsFileWritten : bool;    (* createZkVMParamsFile succeeds *)
  zkVMExec : ExecOutcome;      (* execAsync of the zkVM host *)
  elapsed : Z;                 (* Date.now() - startTime *)
}.

Definition withProof (pre : PreEvaluation) (proof : bool) (t : Z)
  : ZkVMEvaluation :=
  {| approved := pApproved pre; riskScore := pRiskScore pre;
     violationCount := pViolationCount pre; violations := pViolations pre;
     appliedRules := pAppliedRules pre; proofGenerated := proof;
     processingTime := t |}.

(** [evaluateWithZkVM(intent, policy)]; a throw inside the outer [try]
    (writing the parameter file, [execAsync] rejecting) is caught and the
    manual evaluation is returned. *)
Definition evaluateWithZkVM (env : Env) (intent : PaymentIntent)
  (policy : DynamicPolicy) : ZkVMEvaluation :=
  let tz := localOffset env in
  let preEvaluation := evaluateCustomRules tz intent policy in
  let fallback := withProof (evaluateCustomRules tz intent policy) false (elapsed env) in
  if negb (zkVMBinaryExists env) then withProof preEvaluation false (elapsed env)
  else if negb (paramsFileWritten env) then fallback
  else
    match zkVMExec env with
    | ExecRejects => fallback
    | ExecResolves stdout _ =>
        withProof (combineResults preEvaluation (executeZkVMWithParams stdout))
          true (elapsed env)
    end.

(** *** Intent generation *)

Inductive AIType := INVOICE | SCHEDULE | OTHER.

(** [AIAnalysisResult.extractedData] *)
Record ExtractedData := {
  exAmount : option Z;
  vendorName : option string;
  vendorEmail : option string;
  exDueDate : option string;
  exInvoiceNumber : option string;
  title : option string;
  startDate : option string;
  endDate : option string;
  location : option string;
}.

(** [AIAnalysisResult]; the float [confidence] is only copied into the
    intent's metadata, which the model leaves out. *)
Record AIAnalysisResult := {
  aiType : AIType;
  extractedData : ExtractedData;
  reasoning : string;
}.

(** [s || d] on an optional string: [undefined] and [""] are falsy. *)
Definition orElse (o : option string) (d : string) : string :=
  match o with
  | Some s => if String.eqb s "" then d else s
  | None => d
  end.

(** [categorizeVendor(vendorName)] *)
Definition categorizeVendor (vendorName : string) : string :=
  let name := JS.toLowerCase vendorName in
  if JS.includes name "電力" || JS.includes name "ガス" || JS.includes name "水道"
  then "utilities"
  else if JS.includes name "ソフト" || JS.includes name "クラウド"
          || JS.includes name "saas"
  then "software"
  else if JS.includes name "コンサル" || JS.includes name "consulting"
  then "consulting"
  else "other".

(** [generateIntentFromAI(aiResult, originalEmail)]; [Date.now()] is the
    input [nowMs].  [!amount] rejects [undefined] and [0]. *)
Definition generateIntentFromAI (ai : AIAnalysisResult) (originalEmail : string)
  (nowMs : Z) : option PaymentIntent :=
  let ex := extractedData ai in
  match aiType ai, exAmount ex with
  | INVOICE, Some a =>
      if Z.eqb a 0 then None
      else Some {| amount := a;
                   recipient := "0x0000000000000000000000000000000000000000";
                   vendor := orElse (vendorName ex) "Unknown Vendor";
                   category := categorizeVendor (orElse (vendorName ex) "");
                   timestamp := Z.div nowMs 1000;
                   aiExtracted := {| invoiceNumber := exInvoiceNumber ex;
                                     dueDate := exDueDate ex;
                                     originalEmail := originalEmail |} |}
  | _, _ => None
  end.

(** *** The zkVM parameter file *)

(** [createWeekdayMask(weekdays)] *)
Definition createWeekdayMask (weekdays : list Z) : Z :=
  fold_left (fun mask day =>
               if Z.leb 0 day && Z.leb day 6 then JS.bitOr mask (JS.shl 1 day)
               else mask) weekdays 0.

Module Params.
(** The object serialised by [createZkVMParamsFile]. *)
Record ZkVMParams := {
  amount : Z;
  recipient_hash : Z;
  vendor_hash : Z;
  timestamp : Z;
  max_per_payment : Z;
  max_per_day : Z;
  max_per_week : Z;
  allowed_vendor_hash : Z;
  allowed_hours_start : Z;
  allowed_hours_end : Z;
  allowed_weekday_mask : Z;
  current_spending : Z;
  weekly_spending : Z;
  policy_id : string;
  policy_version : string;
  evaluation_timestamp : Z;
}.
End Params.

(** The parameters of [createZkVMParamsFile(intent, policy)]; [hashString]
    (the first 53 bits of a SHA-256 digest) is taken as an argument and
    [Date.now()] is [nowMs]. *)
Definition createZkVMParams (hashString : string -> Z) (intent : PaymentIntent)
  (policy : DynamicPolicy) (nowMs : Z) : Params.ZkVMParams :=
  let r := rules policy in
  {| Params.amount := amount intent;
     Params.recipient_hash := hashString (recipient intent);
     Params.vendor_hash := hashString (vendor intent);
     Params.timestamp := timestamp intent;
     Params.max_per_payment := maxPerPayment r;
     Params.max_per_day := maxPerDay r;
     Params.max_per_week := maxPerWeek r;
     Params.allowed_vendor_hash :=
       match allowedVendors r with v :: _ => hashString v | [] => 0 end;
     Params.allowed_hours_start := allowedHoursStart r;
     Params.allowed_hours_end := allowedHoursEnd r;
     Params.allowed_weekday_mask := createWeekdayMask (allowedWeekdays r);
     Params.current_spending := 0;
     Params.weekly_spending := 0;
     Params.policy_id := id policy;
     Params.policy_version := version policy;
     Params.evaluation_timestamp := nowMs |}.

End IntegratedAIZkVM.

(* ------------------------------------------------------------------ *)
(** ** [zkvm-policy-engine.ts] *)

Module ZkVMPolicyEngine.

Record PaymentIntent := {
  amount : Z;
  recipient : string;
  timestamp : Z;
  vendor : string;
}.

Record PolicyRules := {
  maxPerPayment : Z;
  maxPerDay : Z;
  maxPerWeek : Z;
  allowedVendors : list string;
  allowedHoursStart : Z;
  allowedHoursEnd : Z;
  allowedWeekdays : list Z;
}.

(** [Pick<PolicyEvaluation, 'approved' | 'riskScore' | 'violationCount'>] *)
Record Verdict := {
  vApproved : bool;
  vRiskScore : Z;
  vViolationCount : Z;
}.

Record PolicyEvaluation := {
  approved : bool;
  riskScore : Z;
  violationCount : Z;
  proofGenerated : bool;
  processingTime : Z;
}.

Record ZkVMConfig := {
  hostBinaryPath : string;
  timeout : Z;
  enableProofGeneration : bool;
}.

(** [static getDefaultPolicy()] *)
Definition getDefaultPolicy : PolicyRules :=
  {| maxPerPayment := 100000; maxPerDay := 500000; maxPerWeek := 2000000;
     allowedVendors := []; allowedHoursStart := 9; allowedHoursEnd := 18;
     allowedWeekdays := [1; 2; 3; 4; 5] |}.

(** The two mutable locals of [evaluateManually]. *)
Definition bump (cond : bool) (w : Z) (acc : Z * Z) : Z * Z :=
  if cond then (fst acc + 1, snd acc + w) else acc.

(** [evaluateManually(intent, policy, currentSpending, weeklySpending)];
    [localOffset] is the host's time zone, in seconds. *)
Definition evaluateManually (localOffset : Z) (intent : PaymentIntent)
  (policy : PolicyRules) (currentSpending weeklySpending : Z) : Verdict :=
  let acc := (0, 0) in
  (* 1. amount limits *)
  let acc := bump (maxPerPayment policy <? amount intent) 30 acc in
  let acc := bump (maxPerDay policy <? currentSpending + amount intent) 25 acc in
  let acc := bump (maxPerWeek policy <? weeklySpending + amount intent) 20 acc in
  (* 2. vendor allow list *)
  let acc := bump (negb (JS.arrIncludes (allowedVendors policy) (vendor intent))) 25 acc in
  (* 3. hours *)
  let hour := LocalTime.getHours localOffset (timestamp intent * 1000) in
  let acc := bump ((hour <? allowedHoursStart policy)
                   || (allowedHoursEnd policy <=? hour)) 15 acc in
  (* 4. weekday *)
  let weekday := LocalTime.getDay localOffset (timestamp intent * 1000) in
  let acc := bump (negb (JS.arrIncludesZ (allowedWeekdays policy) weekday)) 10 acc in
  {| vApproved := Z.eqb (fst acc) 0;
     vRiskScore := Z.min (snd acc) 100;
     vViolationCount := fst acc |}.

(** [executeZkVMHost], from the point where [execAsync] resolved with
    [stdout]: the lines are scanned in order, the last match wins. *)
Definition scanLine (st : Verdict) (line : string) : Verdict :=
  let a := if JS.includes line "Approved: true" then true else vApproved st in
  let r := if JS.includes line "Risk Score:" then
             match JS.matchDigitsAfter "Risk Score: " line with
             | Some d => JS.parseInt d
             | None => vRiskScore st
             end
           else vRiskScore st in
  let v := if JS.includes line "Violations:" then
             match JS.matchDigitsAfter "Violations: " line with
             | Some d => JS.parseInt d
             | None => vViolationCount st
             end
           else vViolationCount st in
  {| vApproved := a; vRiskScore := r; vViolationCount := v |}.

Definition executeZkVMHost (stdout : string) : Verdict :=
  fold_left scanLine (JS.splitOn JS.newline stdout)
    {| vApproved := false; vRiskScore := 0; vViolationCount := 0 |}.

(** What the file system, the child process and the clock do during one
    call of [evaluatePaymentIntent]. *)
Record Env := {
  localOffset : Z;
  hostBinaryExists : bool;     (* fs.existsSync(config.hostBinaryPath) *)
  inputFileWritten : bool;     (* createTempInputFile succeeds *)
  hostExec : IntegratedAIZkVM.ExecOutcome;
  elapsed : Z;
}.

Definition withProof (v : Verdict) (proof : bool) (t : Z) : PolicyEvaluation :=
  {| approved := vApproved v; riskScore := vRiskScore v;
     violationCount := vViolationCount v; proofGenerated := proof;
     processingTime := t |}.

(** [evaluatePaymentIntent(intent, policy, currentSpending, weeklySpending)];
    the missing binary is thrown and, like every throw of the [try], ends
    in the manual fallback. *)
Definition evaluatePaymentIntent (config : ZkVMConfig) (env : Env)
  (intent : PaymentIntent) (policy : PolicyRules)
  (currentSpending weeklySpending : Z) : PolicyEvaluation :=
  let manual := evaluateManually (localOffset env) intent policy
                  currentSpending weeklySpending in
  if negb (hostBinaryExists env) then withProof manual false (elapsed env)
  else if negb (enableProofGeneration config) then withProof manual false (elapsed env)
  else if negb (inputFileWritten env) then withProof manual false (elapsed env)
  else
    match hostExec env with
    | IntegratedAIZkVM.ExecRejects => withProof manual false (elapsed env)
    | IntegratedAIZkVM.ExecResolves stdout _ =>
        withProof (executeZkVMHost stdout) true (elapsed env)
    end.

Module Input.
(** The object built by [prepareInputData]. *)
Record InputData := {
  amount : Z;
  recipientHash : Z;
  timestamp : Z;
  vendorHash : Z;
  maxPerPayment : Z;
  maxPerDay : Z;
  maxPerWeek : Z;
  allowedVendorHash : Z;
  allowedHoursStart : Z;
  allowedHoursEnd : Z;
  weekdayMask : Z;
  currentSpending : Z;
  weeklySpending : Z;
}.
End Input.

(** The weekday loop of [prepareInputData]: [if (day < 8) weekdayMask |= 1 << day]. *)
Definition weekdayMaskOf (weekdays : list Z) : Z :=
  fold_left (fun mask day =>
               if Z.ltb day 8 then JS.bitOr mask (JS.shl 1 day) else mask)
    weekdays 0.

(** [prepareInputData(intent, policy, currentSpending, weeklySpending)];
    [hashString] is taken as an argument. *)
Definition prepareInputData (hashString : string -> Z) (intent : PaymentIntent)
  (policy : PolicyRules) (currentSpending weeklySpending : Z) : Input.InputData :=
  {| Input.amount := amount intent;
     Input.recipientHash := hashString (recipient intent);
     Input.timestamp := timestamp intent;
     Input.vendorHash := hashString (vendor intent);
     Input.maxPerPayment := maxPerPayment policy;
     Input.maxPerDay := maxPerDay policy;
     Input.maxPerWeek := maxPerWeek policy;
     Input.allowedVendorHash :=
       match allowedVendors policy with v :: _ => hashString v | [] => 0 end;
     Input.allowedHoursStart := allowedHoursStart policy;
     Input.allowedHoursEnd := allowedHoursEnd policy;
     Input.weekdayMask := weekdayMaskOf (allowedWeekdays policy);
     Input.currentSpending := currentSpending;
     Input.weeklySpending := weeklySpending |}.

(** The [ZkVMConfig] argument of the constructor; absent fields are [None]. *)
Record ZkVMConfigArg := {
  argHostBinaryPath : option string;
  argTimeout : option Z;
  argEnableProofGeneration : option bool;
}.

(** [new ZkVMPolicyEngine(config)]: [hostBinaryPath || default],
    [timeout || 120000], [enableProofGeneration ?? true]; [defaultPath] is
    [path.join(process.cwd(), 'zk/risc0/zkvm-policy-engine/target/debug/host')]. *)
Definition makeConfig (defaultPath : string) (config : ZkVMConfigArg) : ZkVMConfig :=
  {| hostBinaryPath :=
       match argHostBinaryPath config with
       | Some p => if String.eqb p "" then defaultPath else p
       | None => defaultPath
       end;
     timeout :=
       match argTimeout config with
       | Some t => if Z.eqb t 0 then 120000 else t
       | None => 120000
       end;
     enableProofGeneration :=
       match argEnableProofGeneration config with
       | Some b => b
       | None => true
       end |}.

End ZkVMPolicyEngine.

(* ------------------------------------------------------------------ *)
(** ** [zkp-verifier.ts] *)

Module ZKPVerifier.

(** The fields of [zkpProof.proof] (typed [any]) that [verifyProof] reads,
    by their truthiness. *)
Record ProofObject := {
  mock : bool;
  validated : bool;
  error : bool;
  message : string;
}.

Record ZKPProof := {
  proof : ProofObject;
  publicSignals : list string;
  isValid : bool;
}.

(** The object [JSON.parse(lastLine)] read from the worker's output. *)
Record WorkerResult := {
  success : bool;
  wIsValid : bool;
  wError : string;
}.

(** The worker run: [execAsync] rejects (timeout, crash, non-zero exit), or
    it resolves and the last output line is parsed ([None] when
    [JSON.parse] throws). *)
Inductive WorkerOutcome :=
| WorkerRejects
| WorkerOutput (lastLine : option WorkerResult).

Record VerifierEnv := {
  keyFileExists : bool;    (* checkVerificationKey() *)
  keyFileParses : bool;    (* JSON.parse(fs.readFileSync(vKeyPath)) *)
  worker : WorkerOutcome;
}.

(** [verifyProof(zkpProof)]; every throw ends in [catch] with [false]. *)
Definition verifyProof (env : VerifierEnv) (zkpProof : ZKPProof) : bool :=
  if mock (proof zkpProof) then validated (proof zkpProof)
  else if error (proof zkpProof) then isValid zkpProof
  else if negb (keyFileExists env) then isValid zkpProof
  else if negb (keyFileParses env) then false
  else
    match worker env with
    | WorkerRejects => false
    | WorkerOutput None => false
    | WorkerOutput (Some result) =>
        if negb (success result) then false else wIsValid result
    end.

End ZKPVerifier.

(* ------------------------------------------------------------------ *)
(** ** Concrete inputs *)

Module Samples.
Import IntegratedAIZkVM.

(** 2024-01-02 (a Tuesday) 10:00 UTC and 2024-01-06 (a Saturday) 22:00 UTC. *)
Definition tuesday10 : Z := 1704189600.
Definition saturday22 : Z := 1704578400.

Definition email : AIExtracted :=
  {| invoiceNumber := None; dueDate := None; originalEmail := "" |}.

Definition intentOf (amt : Z) (v cat : string) (ts : Z) : PaymentIntent :=
  {| amount := amt; recipient := "0x0000000000000000000000000000000000000000";
     vendor := v; category := cat; timestamp := ts; aiExtracted := email |}.

(** A policy with the default limits and the given lists, category rules
    and conditional rules. *)
Definition policyOf (allow block : list string) (cr : gmap string CategoryRule)
  (cond : list ConditionalRule) : DynamicPolicy :=
  {| id := "policy_user123_0"; version := "1.0.0";
     rules := {| maxPerPayment := 100000; maxPerDay := 500000;
                 maxPerWeek := 2000000; allowedHoursStart := 9;
                 allowedHoursEnd := 18; allowedWeekdays := [1; 2; 3; 4; 5];
                 allowedVendors := allow; blockedVendors := block;
                 customRules := cr; conditionalRules := cond |};
     metadata := {| createdAt := ""; updatedAt := ""; author := "user123" |} |}.

Definition softwareRule : CategoryRule :=
  {| maxAmount := Some 200000; requireApproval := Some true;
     additionalChecks := None |}.

Definition defaultPolicy : DynamicPolicy :=
  createDynamicPolicy "user123" 0 "1970-01-01T00:00:00.000Z" ∅.

Definition heap0 : Heap := {[ 1%positive := defaultPolicy ]}.

Definition engineIntent (amt : Z) (v : string) (ts : Z)
  : ZkVMPolicyEngine.PaymentIntent :=
  {| ZkVMPolicyEngine.amount := amt;
     ZkVMPolicyEngine.recipient := "0x0000000000000000000000000000000000000000";
     ZkVMPolicyEngine.timestamp := ts; ZkVMPolicyEngine.vendor := v |}.

Definition engineConfig : ZkVMPolicyEngine.ZkVMConfig :=
  {| ZkVMPolicyEngine.hostBinaryPath := "zk/risc0/zkvm-policy-engine/target/debug/host";
     ZkVMPolicyEngine.timeout := 120000;
     ZkVMPolicyEngine.enableProofGeneration := true |}.

Example tuesday10_time :
  LocalTime.getHours 0 (tuesday10 * 1000) = 10 /\
  LocalTime.getDay 0 (tuesday10 * 1000) = 2.
Proof. split; reflexivity. Qed.

Example saturday22_time :
  LocalTime.getHours 0 (saturday22 * 1000) = 22 /\
  LocalTime.getDay 0 (saturday22 * 1000) = 6.
Proof. split; reflexivity. Qed.

(** Scenario "approved payment". *)
Example approved_payment :
  pApproved (evaluateCustomRules 0 (intentOf 50000 "Acme" "other" tuesday10)
               (policyOf ["Acme"] [] ∅ [])) = true.
Proof. vm_compute. reflexivity. Qed.

(** Scenario "amount over cap". *)
Example amount_over_cap :
  let e := evaluateCustomRules 0 (intentOf 150000 "Acme" "other" tuesday10)
             (policyOf ["Acme"] [] ∅ []) in
  pApproved e = false /\ pRiskScore e = 30 /\ pViolationCount e = 1.
Proof. vm_compute. auto. Qed.

Example risk_regex :
  JS.matchDigitsAfter "Risk Score: " "x
Risk Score: 42 y" = Some "42" /\
  JS.parseInt "42" = 42 /\ JS.showZ 150000 = "150000" /\ JS.showZ (-7) = "-7".
Proof. vm_compute. auto. Qed.

Example engine_host_output :
  ZkVMPolicyEngine.executeZkVMHost "Approved: true
Risk Score: 12
Violations: 3" =
  {| ZkVMPolicyEngine.vApproved := true; ZkVMPolicyEngine.vRiskScore := 12;
     ZkVMPolicyEngine.vViolationCount := 3 |}.
Proof. vm_compute. reflexivity. Qed.

Example vendor_categories :
  categorizeVendor "AWSクラウドサービス株式会社" = "software" /\
  categorizeVendor "Tokyo SaaS Inc." = "software" /\
  categorizeVendor "東京ガス" = "utilities" /\
  categorizeVendor "Acme" = "other".
Proof. vm_compute. auto. Qed.

Example weekday_masks :
  createWeekdayMask [1; 2; 3; 4; 5] = 62 /\
  ZkVMPolicyEngine.weekdayMaskOf [1; 2; 3; 4; 5] = 62 /\
  ZkVMPolicyEngine.weekdayMaskOf [1; 2; 3; 4; 5; 7] = 190 /\
  ZkVMPolicyEngine.weekdayMaskOf [-1] = -2147483648.
Proof. vm_compute. auto. Qed.

End Samples.

(* ------------------------------------------------------------------ *)
(** ** Record updates and policy edits used to state properties *)

Module Updates.
Import IntegratedAIZkVM.

Definition updRules (f : Rules -> Rules) (p : DynamicPolicy) : DynamicPolicy :=
  {| id := id p; version := version p; rules := f (rules p); metadata := metadata p |}.

Definition setConditionalRules (crs : list ConditionalRule) (rs : Rules) : Rules :=
  {| maxPerPayment := maxPerPayment rs; maxPerDay := maxPerDay rs;
     maxPerWeek := maxPerWeek rs; allowedHoursStart := allowedHoursStart rs;
     allowedHoursEnd := allowedHoursEnd rs; allowedWeekdays := allowedWeekdays rs;
     allowedVendors := allowedVendors rs; blockedVendors := blockedVendors rs;
     customRules := customRules rs; conditionalRules := crs |}.

(** The fields of [rules] that only the zkVM parameter file carries. *)
Definition setDayWeekLimits (d w : Z) (ws : list Z) (rs : Rules) : Rules :=
  {| maxPerPayment := maxPerPayment rs; maxPerDay := d;
     maxPerWeek := w; allowedHoursStart := allowedHoursStart rs;
     allowedHoursEnd := allowedHoursEnd rs; allowedWeekdays := ws;
     allowedVendors := allowedVendors rs; blockedVendors := blockedVendors rs;
     customRules := customRules rs; conditionalRules := conditionalRules rs |}.

Definition setAllowedVendors (vs : list string) (rs : Rules) : Rules :=
  {| maxPerPayment := maxPerPayment rs; maxPerDay := maxPerDay rs;
     maxPerWeek := maxPerWeek rs; allowedHoursStart := allowedHoursStart rs;
     allowedHoursEnd := allowedHoursEnd rs; allowedWeekdays := allowedWeekdays rs;
     allowedVendors := vs; blockedVendors := blockedVendors rs;
     customRules := customRules rs; conditionalRules := conditionalRules rs |}.

Definition setEngineAllowedVendors (vs : list string)
  (p : ZkVMPolicyEngine.PolicyRules) : ZkVMPolicyEngine.PolicyRules :=
  {| ZkVMPolicyEngine.maxPerPayment := ZkVMPolicyEngine.maxPerPayment p;
     ZkVMPolicyEngine.maxPerDay := ZkVMPolicyEngine.maxPerDay p;
     ZkVMPolicyEngine.maxPerWeek := ZkVMPolicyEngine.maxPerWeek p;
     ZkVMPolicyEngine.allowedVendors := vs;
     ZkVMPolicyEngine.allowedHoursStart := ZkVMPolicyEngine.allowedHoursStart p;
     ZkVMPolicyEngine.allowedHoursEnd := ZkVMPolicyEngine.allowedHoursEnd p;
     ZkVMPolicyEngine.allowedWeekdays := ZkVMPolicyEngine.allowedWeekdays p |}.

Definition isApprove (a : RuleAction) : bool :=
  match a with Approve => true | _ => false end.

(** The two in-place edits of a policy object, as [addCustomRule] and
    [addConditionalRule] write them into the heap. *)
Inductive PolicyEdit :=
| EditCustomRule (c : string) (r : CategoryRule) (nowIso : string)
| EditConditionalRule (cr : ConditionalRule) (nowIso : string).

Definition applyEdit (p : DynamicPolicy) (e : PolicyEdit) : DynamicPolicy :=
  match e with
  | EditCustomRule c r now => setCustomRule c r now p
  | EditConditionalRule cr now => pushConditionalRule cr now p
  end.

(** What one firing of a conditional rule adds to the violation count and
    to the risk. *)
Definition stepCount (tz : Z) (i : PaymentIntent) (p : DynamicPolicy)
  (cr : ConditionalRule) : nat :=
  if JS.truthy (evaluateCondition tz (condition cr) i p) then
    match action cr with Approve => 0%nat | _ => 1%nat end
  else 0%nat.

Definition stepRisk (tz : Z) (i : PaymentIntent) (p : DynamicPolicy)
  (cr : ConditionalRule) : Z :=
  if JS.truthy (evaluateCondition tz (condition cr) i p) then
    match action cr with Approve => 0 | Reject => 30 | RequireApproval => 10 end
  else 0.

Definition sumZ (xs : list Z) : Z := fold_right Z.add 0 xs.

(** Calling [addCustomRule] / [addConditionalRule] on the returned policy,
    one edit after the other. *)
Definition runEdit (h : Heap) (l : loc) (e : PolicyEdit) : option (Heap * loc) :=
  match e with
  | EditCustomRule c r now => addCustomRule h l c r now
  | EditConditionalRule cr now =>
      addConditionalRule h l (condition cr) (action cr) (parameters cr) now
  end.

Fixpoint runEdits (h : Heap) (l : loc) (es : list PolicyEdit) : option (Heap * loc) :=
  match es with
  | [] => Some (h, l)
  | e :: es' =>
      match runEdit h l e with
      | Some (h', l') => runEdits h' l' es'
      | None => None
      end
  end.

End Updates.

(* ------------------------------------------------------------------ *)
(** ** Facts about [evaluateCustomRules] *)

Module CustomRulesFacts.
Import IntegratedAIZkVM.

(** Every risk increment comes with a violation, and increments are
    positive. *)
Definition RiskInv (s : EvalState) : Prop :=
  0 <= sRisk s /\ (sViolations s = [] -> sRisk s = 0).

Lemma pushViolation_inv msg w s :
  0 < w -> RiskInv s -> RiskInv (pushViolation msg w s).
Proof.
  intros Hw [H0 _]. unfold RiskInv, pushViolation; simpl. split; [lia|].
  intros Hnil. destruct (sViolations s); discriminate.
Qed.

Lemma pushApplied_inv r s : RiskInv s -> RiskInv (pushApplied r s).
Proof. unfold RiskInv, pushApplied; simpl; auto. Qed.

Lemma pushViolation_extends msg w s :
  sViolations (pushViolation msg w s) = (sViolations s ++ [msg])%list.
Proof. reflexivity. Qed.

Create HintDb riskinv.
#[local] Hint Resolve pushApplied_inv : riskinv.
#[local] Hint Extern 1 (RiskInv (pushViolation _ _ _)) =>
  apply pushViolation_inv; [lia|] : riskinv.

Lemma conditionalStep_inv tz i p s cr :
  RiskInv s -> RiskInv (conditionalStep tz i p s cr).
Proof.
  intros H. unfold conditionalStep.
  destruct (JS.truthy _); [|exact H].
  destruct (action cr); eauto with riskinv.
Qed.

(** The conditional-rule loop only appends violations. *)
Lemma conditionalStep_extends tz i p s cr :
  exists l, sViolations (conditionalStep tz i p s cr) = (sViolations s ++ l)%list.
Proof.
  unfold conditionalStep. destruct (JS.truthy _).
  - destruct (action cr); simpl.
    + exists []. by rewrite app_nil_r.
    + eexists; reflexivity.
    + eexists; reflexivity.
  - exists []. by rewrite app_nil_r.
Qed.

Lemma fold_conditional_inv tz i p crs s :
  RiskInv s -> RiskInv (fold_left (conditionalStep tz i p) crs s).
Proof.
  revert s. induction crs as [|cr crs IH]; intros s H; simpl; auto.
  apply IH, conditionalStep_inv, H.
Qed.

Lemma fold_conditional_extends tz i p crs s :
  exists l, sViolations (fold_left (conditionalStep tz i p) crs s)
            = (sViolations s ++ l)%list.
Proof.
  revert s. induction crs as [|cr crs IH]; intros s; simpl.
  - exists []. by rewrite app_nil_r.
  - destruct (IH (conditionalStep tz i p s cr)) as [l1 Hl1].
    destruct (conditionalStep_extends tz i p s cr) as [l2 Hl2].
    exists (l2 ++ l1)%list. rewrite Hl1, Hl2. by rewrite app_assoc.
Qed.

Lemma staticChecks_inv tz i p : RiskInv (staticChecks tz i p).
Proof.
  unfold staticChecks.
  assert (H0 : RiskInv {| sViolations := []; sAppliedRules := []; sRisk := 0 |})
    by (split; simpl; auto; lia).
  repeat match goal with
         | |- RiskInv (match ?x with _ => _ end) => destruct x
         | |- RiskInv (pushApplied _ _) => apply pushApplied_inv
         | |- RiskInv (pushViolation _ _ _) => apply pushViolation_inv; [lia|]
         end; exact H0.
Qed.

Lemma evaluateCustomRules_inv tz i p :
  let s := fold_left (conditionalStep tz i p) (conditionalRules (rules p))
             (staticChecks tz i p) in
  RiskInv s.
Proof. apply fold_conditional_inv, staticChecks_inv. Qed.

(** A violation, once recorded, stays. *)
Definition HasViolation (s : EvalState) : Prop := sViolations s <> [].

Lemma pushViolation_has msg w s : HasViolation (pushViolation msg w s).
Proof.
  unfold HasViolation. rewrite pushViolation_extends.
  destruct (sViolations s); discriminate.
Qed.

Lemma pushApplied_has r s : HasViolation s -> HasViolation (pushApplied r s).
Proof. auto. Qed.

Lemma staticChecks_blocked tz i p :
  JS.arrIncludes (blockedVendors (rules p)) (vendor i) = true ->
  HasViolation (staticChecks tz i p).
Proof.
  intros Hb. unfold staticChecks. cbv zeta. rewrite Hb.
  repeat match goal with
         | |- HasViolation (match ?x with _ => _ end) => destruct x
         | |- HasViolation (pushApplied _ _) => apply pushApplied_has
         | |- HasViolation (pushViolation _ _ _) => apply pushViolation_has
         end.
Qed.

Lemma evaluateCustomRules_has tz i p :
  HasViolation (staticChecks tz i p) ->
  pApproved (evaluateCustomRules tz i p) = false.
Proof.
  intros H. unfold evaluateCustomRules; simpl.
  destruct (fold_conditional_extends tz i p (conditionalRules (rules p))
              (staticChecks tz i p)) as [l ->].
  unfold HasViolation in H.
  destruct (sViolations (staticChecks tz i p)); [congruence|reflexivity].
Qed.

(** [requireApproval] of a category rule is never read. *)
Definition dropApproval (r : CategoryRule) : CategoryRule :=
  {| maxAmount := maxAmount r; requireApproval := None;
     additionalChecks := additionalChecks r |}.

Definition stripApproval (p : DynamicPolicy) : DynamicPolicy :=
  let rs := rules p in
  {| id := id p; version := version p;
     rules := {| maxPerPayment := maxPerPayment rs; maxPerDay := maxPerDay rs;
                 maxPerWeek := maxPerWeek rs;
                 allowedHoursStart := allowedHoursStart rs;
                 allowedHoursEnd := allowedHoursEnd rs;
                 allowedWeekdays := allowedWeekdays rs;
                 allowedVendors := allowedVendors rs;
                 blockedVendors := blockedVendors rs;
                 customRules := dropApproval <$> customRules rs;
                 conditionalRules := conditionalRules rs |};
     metadata := metadata p |}.

Lemma lookupCategoryRule_strip m k :
  lookupCategoryRule (dropApproval <$> m) k = dropApproval <$> lookupCategoryRule m k.
Proof.
  unfold lookupCategoryRule. rewrite lookup_fmap.
  destruct (m !! k); simpl; [reflexivity|].
  destruct (JS.isProtoKey k); reflexivity.
Qed.

Lemma staticChecks_strip tz i p :
  staticChecks tz i (stripApproval p) = staticChecks tz i p.
Proof.
  unfold staticChecks, stripApproval. simpl.
  rewrite lookupCategoryRule_strip.
  destruct (lookupCategoryRule _ _); reflexivity.
Qed.

(** A firing [require_approval] (or [reject]) rule leaves a violation. *)
Lemma conditionalStep_has tz i p s cr :
  HasViolation s -> HasViolation (conditionalStep tz i p s cr).
Proof.
  unfold HasViolation. intros H.
  destruct (conditionalStep_extends tz i p s cr) as [l ->].
  destruct (sViolations s); [congruence|discriminate].
Qed.

Lemma fold_conditional_has tz i p crs s :
  HasViolation s -> HasViolation (fold_left (conditionalStep tz i p) crs s).
Proof.
  revert s. induction crs as [|cr crs IH]; intros s H; simpl; auto.
  apply IH, conditionalStep_has, H.
Qed.

Lemma fold_conditional_fires tz i p crs s cr :
  In cr crs -> action cr = RequireApproval ->
  JS.truthy (evaluateCondition tz (condition cr) i p) = true ->
  HasViolation (fold_left (conditionalStep tz i p) crs s).
Proof.
  revert s. induction crs as [|c crs IH]; intros s Hin Ha Ht; [destruct Hin|].
  simpl. destruct Hin as [->|Hin]; [|apply IH; auto].
  apply fold_conditional_has. unfold conditionalStep.
  rewrite Ht, Ha. apply pushViolation_has.
Qed.

(** A condition outside the seven whitelisted strings and outside the
    members of [Object.prototype] evaluates to [false]. *)
Lemma unlisted_condition_inert tz c i p :
  safeConditionsOwn c = None -> JS.isProtoKey c = false ->
  evaluateCondition tz c i p = JS.JBool false.
Proof.
  intros H1 H2. unfold evaluateCondition, safeEvaluateCondition.
  rewrite H1, H2. reflexivity.
Qed.

End CustomRulesFacts.

(* ------------------------------------------------------------------ *)
(** ** Facts about [evaluateManually] *)

Module ManualFacts.
Import ZkVMPolicyEngine.

Definition CountInv (acc : Z * Z) : Prop :=
  0 <= fst acc /\ 0 <= snd acc /\ (fst acc = 0 -> snd acc = 0).

Lemma bump_inv b w acc : 0 < w -> CountInv acc -> CountInv (bump b w acc).
Proof.
  intros Hw (H1 & H2 & H3). unfold bump.
  destruct b; [|unfold CountInv; auto]. unfold CountInv; simpl; lia.
Qed.

Lemma evaluateManually_inv tz i p c w :
  let v := evaluateManually tz i p c w in
  0 <= vViolationCount v /\ (0 <= vRiskScore v <= 100) /\
  (vViolationCount v = 0 -> vRiskScore v = 0) /\
  vApproved v = Z.eqb (vViolationCount v) 0.
Proof.
  unfold evaluateManually. cbv zeta.
  match goal with
  | |- context [Z.min (snd ?acc) 100] =>
      assert (H : CountInv acc)
        by (repeat apply bump_inv; try lia; unfold CountInv; simpl; lia)
  end.
  destruct H as (H1 & H2 & H3). simpl. repeat split; lia.
Qed.

End ManualFacts.

(* ------------------------------------------------------------------ *)
(** ** Facts about the zkVM output parsing *)

Module OutputFacts.
Import ZkVMPolicyEngine.

Lemma fold_scanLine_approved lines st :
  forallb (fun l => negb (JS.includes l "Approved: true")) lines = true ->
  vApproved (fold_left scanLine lines st) = vApproved st.
Proof.
  revert st. induction lines as [|l lines IH]; intros st H; simpl in *; auto.
  apply andb_prop in H as [Hl Hrest].
  rewrite IH by exact Hrest. unfold scanLine; simpl.
  destruct (JS.includes l "Approved: true"); [discriminate|reflexivity].
Qed.

Lemma executeZkVMHost_not_approved stdout :
  forallb (fun l => negb (JS.includes l "Approved: true"))
    (JS.splitOn JS.newline stdout) = true ->
  vApproved (executeZkVMHost stdout) = false.
Proof. intros H. unfold executeZkVMHost. rewrite fold_scanLine_approved; auto. Qed.

End OutputFacts.

(* ------------------------------------------------------------------ *)
(** ** The claims *)

Module Claims.
Import IntegratedAIZkVM.

(** C4 (block-list supremacy): whenever the intent's vendor is both in
    [allowedVendors] and in [blockedVendors], [evaluateCustomRules]
    rejects: the block-list hit records a violation (risk 50) and approval
    requires zero violations. *)
Theorem blocklist_supremacy (tz : Z) (intent : PaymentIntent)
  (policy : DynamicPolicy) :
  JS.arrIncludes (allowedVendors (rules policy)) (vendor intent) = true ->
  JS.arrIncludes (blockedVendors (rules policy)) (vendor intent) = true ->
  pApproved (evaluateCustomRules tz intent policy) = false.
Proof.
  intros _ Hb.
  apply CustomRulesFacts.evaluateCustomRules_has,
        CustomRulesFacts.staticChecks_blocked, Hb.
Qed.

Lemma blocklist_supremacy_witness :
  JS.arrIncludes ["Acme"] "Acme" = true /\
  pApproved (evaluateCustomRules 0 (Samples.intentOf 50000 "Acme" "other" Samples.tuesday10)
               (Samples.policyOf ["Acme"] ["Acme"] ∅ [])) = false.
Proof.
  split; [reflexivity|].
  apply (blocklist_supremacy 0 (Samples.intentOf 50000 "Acme" "other" Samples.tuesday10)
           (Samples.policyOf ["Acme"] ["Acme"] ∅ [])); vm_compute; reflexivity.
Defined.

(** C9 (risk is monotone under added violations): if an evaluation has no
    violation, any evaluation with at least one violation (in particular
    one more violating condition) has a risk score at least as high, still
    capped at 100, and is not approved.  This holds for
    [evaluateCustomRules] and for [ZkVMPolicyEngine.evaluateManually]. *)
Theorem risk_monotone_under_violation :
  (forall (tz : Z) (i i' : PaymentIntent) (p p' : DynamicPolicy),
     pViolationCount (evaluateCustomRules tz i p) = 0 ->
     1 <= pViolationCount (evaluateCustomRules tz i' p') ->
     pRiskScore (evaluateCustomRules tz i p) <= pRiskScore (evaluateCustomRules tz i' p')
     /\ pRiskScore (evaluateCustomRules tz i' p') <= 100
     /\ pApproved (evaluateCustomRules tz i' p') = false) /\
  (forall (tz : Z) (i i' : ZkVMPolicyEngine.PaymentIntent)
          (p p' : ZkVMPolicyEngine.PolicyRules) (c w c' w' : Z),
     ZkVMPolicyEngine.vViolationCount (ZkVMPolicyEngine.evaluateManually tz i p c w) = 0 ->
     1 <= ZkVMPolicyEngine.vViolationCount (ZkVMPolicyEngine.evaluateManually tz i' p' c' w') ->
     ZkVMPolicyEngine.vRiskScore (ZkVMPolicyEngine.evaluateManually tz i p c w)
       <= ZkVMPolicyEngine.vRiskScore (ZkVMPolicyEngine.evaluateManually tz i' p' c' w')
     /\ ZkVMPolicyEngine.vRiskScore (ZkVMPolicyEngine.evaluateManually tz i' p' c' w') <= 100
     /\ ZkVMPolicyEngine.vApproved (ZkVMPolicyEngine.evaluateManually tz i' p' c' w') = false).
Proof.
  split.
  - intros tz i i' p p' H0 H1.
    pose proof (CustomRulesFacts.evaluateCustomRules_inv tz i p) as [Ha Hb].
    pose proof (CustomRulesFacts.evaluateCustomRules_inv tz i' p') as [Ha' Hb'].
    unfold evaluateCustomRules in *; simpl in *.
    destruct (sViolations (fold_left _ _ (staticChecks tz i p))) eqn:E;
      [|simpl in H0; lia].
    rewrite (Hb eq_refl).
    destruct (sViolations (fold_left _ _ (staticChecks tz i' p'))) eqn:E';
      simpl in H1; [lia|].
    repeat split; lia.
  - intros tz i i' p p' c w c' w' H0 H1.
    pose proof (ManualFacts.evaluateManually_inv tz i p c w) as (A1 & A2 & A3 & A4).
    pose proof (ManualFacts.evaluateManually_inv tz i' p' c' w') as (B1 & B2 & B3 & B4).
    cbv zeta in *. rewrite B4.
    repeat split; try lia.
Qed.

Lemma risk_monotone_under_violation_witness :
  pViolationCount (evaluateCustomRules 0
    (Samples.intentOf 50000 "Acme" "other" Samples.tuesday10)
    (Samples.policyOf ["Acme"] [] ∅ [])) = 0 /\
  1 <= pViolationCount (evaluateCustomRules 0
    (Samples.intentOf 150000 "Acme" "other" Samples.tuesday10)
    (Samples.policyOf ["Acme"] [] ∅ [])) /\
  pRiskScore (evaluateCustomRules 0
    (Samples.intentOf 50000 "Acme" "other" Samples.tuesday10)
    (Samples.policyOf ["Acme"] [] ∅ []))
  <= pRiskScore (evaluateCustomRules 0
    (Samples.intentOf 150000 "Acme" "other" Samples.tuesday10)
    (Samples.policyOf ["Acme"] [] ∅ [])).
Proof.
  split; [vm_compute; reflexivity|]. split; [vm_compute; discriminate|].
  apply (proj1 risk_monotone_under_violation 0
           (Samples.intentOf 50000 "Acme" "other" Samples.tuesday10)
           (Samples.intentOf 150000 "Acme" "other" Samples.tuesday10)
           (Samples.policyOf ["Acme"] [] ∅ []) (Samples.policyOf ["Acme"] [] ∅ []));
    vm_compute; [reflexivity|discriminate].
Defined.

(** An environment in which the zkVM binary runs and prints [out]. *)
Definition runsWith (out : string) : Env :=
  {| localOffset := 0; zkVMBinaryExists := true; paramsFileWritten := true;
     zkVMExec := ExecResolves out ""; elapsed := 0 |}.

Definition engineRunsWith (out : string) : ZkVMPolicyEngine.Env :=
  {| ZkVMPolicyEngine.localOffset := 0; ZkVMPolicyEngine.hostBinaryExists := true;
     ZkVMPolicyEngine.inputFileWritten := true;
     ZkVMPolicyEngine.hostExec := ExecResolves out "";
     ZkVMPolicyEngine.elapsed := 0 |}.

Definition hostApproves : string :=
  "Approved: true" ++ String JS.newline "Risk Score: 0".

(** C1, counterexample: [ZkVMPolicyEngine.evaluatePaymentIntent] returns
    the zkVM's own verdict when the run succeeds: with the default policy
    (empty allow list) its manual evaluator rejects, yet the returned
    [approved] is [true]. *)
Lemma orchestrated_conjunction_counterexample :
  let i := Samples.engineIntent 50000 "Acme" Samples.tuesday10 in
  let e := ZkVMPolicyEngine.evaluatePaymentIntent Samples.engineConfig
             (engineRunsWith hostApproves) i ZkVMPolicyEngine.getDefaultPolicy 0 0 in
  ZkVMPolicyEngine.vApproved
    (ZkVMPolicyEngine.evaluateManually 0 i ZkVMPolicyEngine.getDefaultPolicy 0 0) = false /\
  ZkVMPolicyEngine.vApproved (ZkVMPolicyEngine.executeZkVMHost hostApproves) = true /\
  ZkVMPolicyEngine.proofGenerated e = true /\
  ZkVMPolicyEngine.approved e = true.
Proof. vm_compute. auto. Qed.

(** C1, amended: after a successful zkVM run, [evaluateWithZkVM] approves
    exactly when [evaluateCustomRules] approves and the zkVM's parsed flag
    approves, while [ZkVMPolicyEngine.evaluatePaymentIntent] returns the
    zkVM's parsed flag alone. *)
Theorem orchestrated_approval_on_success :
  (forall (env : Env) (intent : PaymentIntent) (policy : DynamicPolicy)
          (stdout stderr : string),
     zkVMBinaryExists env = true -> paramsFileWritten env = true ->
     zkVMExec env = ExecResolves stdout stderr ->
     approved (evaluateWithZkVM env intent policy)
       = pApproved (evaluateCustomRules (localOffset env) intent policy)
         && default false (zApproved (executeZkVMWithParams stdout))
     /\ proofGenerated (evaluateWithZkVM env intent policy) = true) /\
  (forall (config : ZkVMPolicyEngine.ZkVMConfig) (env : ZkVMPolicyEngine.Env)
          (intent : ZkVMPolicyEngine.PaymentIntent)
          (policy : ZkVMPolicyEngine.PolicyRules) (c w : Z) (stdout stderr : string),
     ZkVMPolicyEngine.hostBinaryExists env = true ->
     ZkVMPolicyEngine.enableProofGeneration config = true ->
     ZkVMPolicyEngine.inputFileWritten env = true ->
     ZkVMPolicyEngine.hostExec env = ExecResolves stdout stderr ->
     ZkVMPolicyEngine.approved
       (ZkVMPolicyEngine.evaluatePaymentIntent config env intent policy c w)
       = ZkVMPolicyEngine.vApproved (ZkVMPolicyEngine.executeZkVMHost stdout)
     /\ ZkVMPolicyEngine.proofGenerated
          (ZkVMPolicyEngine.evaluatePaymentIntent config env intent policy c w) = true).
Proof.
  split.
  - intros env intent policy stdout stderr H1 H2 H3.
    unfold evaluateWithZkVM. rewrite H1, H2, H3. simpl. auto.
  - intros config env intent policy c w stdout stderr H1 H2 H3 H4.
    unfold ZkVMPolicyEngine.evaluatePaymentIntent. rewrite H1, H2, H3, H4.
    simpl. auto.
Qed.

Lemma orchestrated_approval_on_success_witness :
  approved (evaluateWithZkVM (runsWith hostApproves)
              (Samples.intentOf 50000 "Acme" "other" Samples.tuesday10)
              (Samples.policyOf ["Acme"] [] ∅ [])) = true /\
  ZkVMPolicyEngine.approved
    (ZkVMPolicyEngine.evaluatePaymentIntent Samples.engineConfig
       (engineRunsWith hostApproves)
       (Samples.engineIntent 50000 "Acme" Samples.tuesday10)
       ZkVMPolicyEngine.getDefaultPolicy 0 0) = true.
Proof.
  split.
  - rewrite (proj1 (proj1 orchestrated_approval_on_success (runsWith hostApproves)
              (Samples.intentOf 50000 "Acme" "other" Samples.tuesday10)
              (Samples.policyOf ["Acme"] [] ∅ []) hostApproves ""
              eq_refl eq_refl eq_refl)).
    vm_compute. reflexivity.
  - rewrite (proj1 (proj2 orchestrated_approval_on_success Samples.engineConfig
              (engineRunsWith hostApproves)
              (Samples.engineIntent 50000 "Acme" Samples.tuesday10)
              ZkVMPolicyEngine.getDefaultPolicy 0 0 hostApproves ""
              eq_refl eq_refl eq_refl eq_refl)).
    vm_compute. reflexivity.
Defined.

(** C2, counterexample: a zkVM run that exits normally but prints nothing
    parseable is not treated as unavailable: [evaluateWithZkVM] reports
    [proofGenerated = true]. *)
Lemma proof_unavailable_counterexample :
  proofGenerated (evaluateWithZkVM (runsWith "garbage")
    (Samples.intentOf 50000 "Acme" "other" Samples.tuesday10)
    (Samples.policyOf ["Acme"] [] ∅ [])) = true.
Proof. vm_compute. reflexivity. Qed.

(** C2, amended: when the binary is missing, the parameter/input file
    cannot be written or the process invocation rejects (timeout, crash,
    non-zero exit), both entry points return their manual evaluator's
    verdict with [proofGenerated = false].  A run that exits normally is
    always taken as a generated proof: with output that has no
    ["Approved: false"], [evaluateWithZkVM] returns the manual verdict, and
    with no line containing ["Approved: true"],
    [ZkVMPolicyEngine.evaluatePaymentIntent] rejects. *)
Theorem proof_unavailable_falls_back :
  (forall (env : Env) (intent : PaymentIntent) (policy : DynamicPolicy),
     (zkVMBinaryExists env = false \/ paramsFileWritten env = false \/
      zkVMExec env = ExecRejects) ->
     approved (evaluateWithZkVM env intent policy)
       = pApproved (evaluateCustomRules (localOffset env) intent policy)
     /\ proofGenerated (evaluateWithZkVM env intent policy) = false) /\
  (forall (env : Env) (intent : PaymentIntent) (policy : DynamicPolicy)
          (stdout stderr : string),
     zkVMBinaryExists env = true -> paramsFileWritten env = true ->
     zkVMExec env = ExecResolves stdout stderr ->
     JS.includes stdout "Approved: false" = false ->
     approved (evaluateWithZkVM env intent policy)
       = pApproved (evaluateCustomRules (localOffset env) intent policy)
     /\ proofGenerated (evaluateWithZkVM env intent policy) = true) /\
  (forall (config : ZkVMPolicyEngine.ZkVMConfig) (env : ZkVMPolicyEngine.Env)
          (intent : ZkVMPolicyEngine.PaymentIntent)
          (policy : ZkVMPolicyEngine.PolicyRules) (c w : Z),
     (ZkVMPolicyEngine.hostBinaryExists env = false \/
      ZkVMPolicyEngine.inputFileWritten env = false \/
      ZkVMPolicyEngine.hostExec env = ExecRejects) ->
     ZkVMPolicyEngine.approved
       (ZkVMPolicyEngine.evaluatePaymentIntent config env intent policy c w)
       = ZkVMPolicyEngine.vApproved
           (ZkVMPolicyEngine.evaluateManually (ZkVMPolicyEngine.localOffset env)
              intent policy c w)
     /\ ZkVMPolicyEngine.proofGenerated
          (ZkVMPolicyEngine.evaluatePaymentIntent config env intent policy c w) = false) /\
  (forall (config : ZkVMPolicyEngine.ZkVMConfig) (env : ZkVMPolicyEngine.Env)
          (intent : ZkVMPolicyEngine.PaymentIntent)
          (policy : ZkVMPolicyEngine.PolicyRules) (c w : Z) (stdout stderr : string),
     ZkVMPolicyEngine.hostBinaryExists env = true ->
     ZkVMPolicyEngine.enableProofGeneration config = true ->
     ZkVMPolicyEngine.inputFileWritten env = true ->
     ZkVMPolicyEngine.hostExec env = ExecResolves stdout stderr ->
     forallb (fun l => negb (JS.includes l "Approved: true"))
       (JS.splitOn JS.newline stdout) = true ->
     ZkVMPolicyEngine.approved
       (ZkVMPolicyEngine.evaluatePaymentIntent config env intent policy c w) = false
     /\ ZkVMPolicyEngine.proofGenerated
          (ZkVMPolicyEngine.evaluatePaymentIntent config env intent policy c w) = true).
Proof.
  split; [|split; [|split]].
  - intros env intent policy H. unfold evaluateWithZkVM.
    destruct (zkVMBinaryExists env) eqn:E1; [|simpl; auto].
    destruct (paramsFileWritten env) eqn:E2; [|simpl; auto].
    destruct H as [H|[H|H]]; try congruence. rewrite H. simpl. auto.
  - intros env intent policy stdout stderr H1 H2 H3 H4.
    unfold evaluateWithZkVM. rewrite H1, H2, H3. simpl.
    rewrite H4. simpl. rewrite andb_true_r. auto.
  - intros config env intent policy c w H.
    unfold ZkVMPolicyEngine.evaluatePaymentIntent.
    destruct (ZkVMPolicyEngine.hostBinaryExists env) eqn:E1; [|simpl; auto].
    destruct (ZkVMPolicyEngine.enableProofGeneration config); [|simpl; auto].
    destruct (ZkVMPolicyEngine.inputFileWritten env) eqn:E2; [|simpl; auto].
    destruct H as [H|[H|H]]; try congruence. rewrite H. simpl. auto.
  - intros config env intent policy c w stdout stderr H1 H2 H3 H4 H5.
    unfold ZkVMPolicyEngine.evaluatePaymentIntent. rewrite H1, H2, H3, H4.
    simpl. split; [|reflexivity].
    apply OutputFacts.executeZkVMHost_not_approved, H5.
Qed.

(** The environment in which the zkVM binary is missing. *)
Definition binaryMissing : Env :=
  {| localOffset := 0; zkVMBinaryExists := false; paramsFileWritten := true;
     zkVMExec := ExecRejects; elapsed := 0 |}.

Lemma proof_unavailable_falls_back_witness :
  approved (evaluateWithZkVM binaryMissing
              (Samples.intentOf 50000 "Acme" "other" Samples.tuesday10)
              (Samples.policyOf ["Acme"] [] ∅ [])) = true /\
  approved (evaluateWithZkVM (runsWith "garbage")
              (Samples.intentOf 50000 "Acme" "other" Samples.tuesday10)
              (Samples.policyOf ["Acme"] [] ∅ [])) = true /\
  ZkVMPolicyEngine.proofGenerated
    (ZkVMPolicyEngine.evaluatePaymentIntent Samples.engineConfig
       (engineRunsWith "garbage")
       (Samples.engineIntent 50000 "Acme" Samples.tuesday10)
       ZkVMPolicyEngine.getDefaultPolicy 0 0) = true.
Proof.
  split; [|split].
  - rewrite (proj1 (proj1 proof_unavailable_falls_back binaryMissing
              (Samples.intentOf 50000 "Acme" "other" Samples.tuesday10)
              (Samples.policyOf ["Acme"] [] ∅ []) (or_introl eq_refl))).
    vm_compute. reflexivity.
  - rewrite (proj1 (proj1 (proj2 proof_unavailable_falls_back) (runsWith "garbage")
              (Samples.intentOf 50000 "Acme" "other" Samples.tuesday10)
              (Samples.policyOf ["Acme"] [] ∅ []) "garbage" ""
              eq_refl eq_refl eq_refl ltac:(vm_compute; reflexivity))).
    vm_compute. reflexivity.
  - apply (proj2 (proj2 (proj2 (proj2 proof_unavailable_falls_back)) Samples.engineConfig
              (engineRunsWith "garbage")
              (Samples.engineIntent 50000 "Acme" Samples.tuesday10)
              ZkVMPolicyEngine.getDefaultPolicy 0 0 "garbage" ""
              eq_refl eq_refl eq_refl eq_refl ltac:(vm_compute; reflexivity))).
Defined.

(** A real (neither mock nor error) proof object. *)
Definition realProof (valid : bool) : ZKPVerifier.ZKPProof :=
  {| ZKPVerifier.proof := {| ZKPVerifier.mock := false; ZKPVerifier.validated := false;
                             ZKPVerifier.error := false; ZKPVerifier.message := "" |};
     ZKPVerifier.publicSignals := ["1"; "1"; "1"; "1"];
     ZKPVerifier.isValid := valid |}.

(** C3, counterexample: with no verification key file, [verifyProof]
    returns the artifact's own [isValid] flag, [true], although no
    cryptographic verification took place. *)
Lemma verify_fail_closed_counterexample :
  ZKPVerifier.verifyProof
    {| ZKPVerifier.keyFileExists := false; ZKPVerifier.keyFileParses := false;
       ZKPVerifier.worker := ZKPVerifier.WorkerRejects |}
    (realProof true) = true.
Proof. reflexivity. Qed.

(** C3, amended: for a proof that is neither a mock nor an error proof and
    with the verification key file present, [verifyProof] is [true] exactly
    when the key parses and the verification worker reports success with
    [isValid] true (any error gives [false]); a mock proof yields its
    [validated] flag, an error proof and a missing key file yield the
    artifact's own [isValid]. *)
Theorem verify_fail_closed_with_key :
  (forall (env : ZKPVerifier.VerifierEnv) (p : ZKPVerifier.ZKPProof),
     ZKPVerifier.mock (ZKPVerifier.proof p) = false ->
     ZKPVerifier.error (ZKPVerifier.proof p) = false ->
     ZKPVerifier.keyFileExists env = true ->
     (ZKPVerifier.verifyProof env p = true <->
      ZKPVerifier.keyFileParses env = true /\
      exists r, ZKPVerifier.worker env = ZKPVerifier.WorkerOutput (Some r) /\
                ZKPVerifier.success r = true /\ ZKPVerifier.wIsValid r = true)) /\
  (forall (env : ZKPVerifier.VerifierEnv) (p : ZKPVerifier.ZKPProof),
     ZKPVerifier.mock (ZKPVerifier.proof p) = true ->
     ZKPVerifier.verifyProof env p = ZKPVerifier.validated (ZKPVerifier.proof p)) /\
  (forall (env : ZKPVerifier.VerifierEnv) (p : ZKPVerifier.ZKPProof),
     ZKPVerifier.mock (ZKPVerifier.proof p) = false ->
     (ZKPVerifier.error (ZKPVerifier.proof p) = true \/
      ZKPVerifier.keyFileExists env = false) ->
     ZKPVerifier.verifyProof env p = ZKPVerifier.isValid p).
Proof.
  split; [|split].
  - intros env p Hm He Hk. unfold ZKPVerifier.verifyProof.
    rewrite Hm, He, Hk. simpl.
    destruct (ZKPVerifier.keyFileParses env); simpl.
    + destruct (ZKPVerifier.worker env) as [|[r|]].
      * split; [discriminate|]. intros [_ [r [H _]]]. discriminate.
      * destruct (ZKPVerifier.success r) eqn:Es; simpl.
        -- split; [intros Hv; split; [reflexivity|eauto]|].
           intros [_ [r' [Hr [_ Hv]]]]. injection Hr as ->. exact Hv.
        -- split; [discriminate|]. intros [_ [r' [Hr [Hs _]]]].
           injection Hr as ->. congruence.
      * split; [discriminate|]. intros [_ [r [H _]]]. discriminate.
    + split; [discriminate|]. intros [H _]. discriminate.
  - intros env p Hm. unfold ZKPVerifier.verifyProof. rewrite Hm. reflexivity.
  - intros env p Hm [He|Hk]; unfold ZKPVerifier.verifyProof; rewrite Hm.
    + rewrite He. reflexivity.
    + destruct (ZKPVerifier.error (ZKPVerifier.proof p)); [reflexivity|].
      rewrite Hk. reflexivity.
Qed.

Definition workerSays (ok valid : bool) : ZKPVerifier.VerifierEnv :=
  {| ZKPVerifier.keyFileExists := true; ZKPVerifier.keyFileParses := true;
     ZKPVerifier.worker := ZKPVerifier.WorkerOutput
       (Some {| ZKPVerifier.success := ok; ZKPVerifier.wIsValid := valid;
                ZKPVerifier.wError := "" |}) |}.

Lemma verify_fail_closed_with_key_witness :
  ZKPVerifier.verifyProof (workerSays false true) (realProof true) = false /\
  ZKPVerifier.verifyProof
    {| ZKPVerifier.keyFileExists := false; ZKPVerifier.keyFileParses := true;
       ZKPVerifier.worker := ZKPVerifier.WorkerRejects |} (realProof false) = false.
Proof.
  split.
  - destruct (ZKPVerifier.verifyProof (workerSays false true) (realProof true)) eqn:E;
      [|reflexivity].
    apply (proj1 verify_fail_closed_with_key (workerSays false true) (realProof true)
             eq_refl eq_refl eq_refl) in E.
    destruct E as [_ [r [Hr [Hs _]]]]. injection Hr as <-. discriminate.
  - rewrite (proj2 (proj2 verify_fail_closed_with_key)
               {| ZKPVerifier.keyFileExists := false; ZKPVerifier.keyFileParses := true;
                  ZKPVerifier.worker := ZKPVerifier.WorkerRejects |} (realProof false)
               eq_refl (or_intror eq_refl)).
    reflexivity.
Defined.

(** C5, counterexample: a ["software"] payment under its category cap, with
    [requireApproval = true] on the category rule and otherwise passing, is
    approved by [evaluateCustomRules]. *)
Lemma require_approval_soft_stop_counterexample :
  let e := evaluateCustomRules 0
             (Samples.intentOf 50000 "Acme" "software" Samples.tuesday10)
             (Samples.policyOf [] [] {[ "software" := Samples.softwareRule ]} []) in
  requireApproval Samples.softwareRule = Some true /\
  pApproved e = true /\ pViolations e = [].
Proof. vm_compute. auto. Qed.

(** C5, amended: [evaluateCustomRules] never reads a category rule's
    [requireApproval] (erasing it from every category rule leaves the
    result unchanged); a firing conditional rule with action
    [require_approval] appends one violation and adds 10 to the risk, so
    the result is not approved. *)
Theorem require_approval_is_violation :
  (forall (tz : Z) (intent : PaymentIntent) (policy : DynamicPolicy),
     evaluateCustomRules tz intent (CustomRulesFacts.stripApproval policy)
     = evaluateCustomRules tz intent policy) /\
  (forall (tz : Z) (intent : PaymentIntent) (policy : DynamicPolicy)
          (s : EvalState) (cr : ConditionalRule),
     action cr = RequireApproval ->
     JS.truthy (evaluateCondition tz (condition cr) intent policy) = true ->
     sViolations (conditionalStep tz intent policy s cr)
       = (sViolations s ++ [String.append "条件分岐による承認要求: " (condition cr)])%list
     /\ sRisk (conditionalStep tz intent policy s cr) = sRisk s + 10) /\
  (forall (tz : Z) (intent : PaymentIntent) (policy : DynamicPolicy)
          (cr : ConditionalRule),
     In cr (conditionalRules (rules policy)) -> action cr = RequireApproval ->
     JS.truthy (evaluateCondition tz (condition cr) intent policy) = true ->
     pApproved (evaluateCustomRules tz intent policy) = false).
Proof.
  split; [|split].
  - intros tz intent policy. unfold evaluateCustomRules.
    rewrite CustomRulesFacts.staticChecks_strip. reflexivity.
  - intros tz intent policy s cr Ha Ht. unfold conditionalStep.
    rewrite Ht, Ha. split; reflexivity.
  - intros tz intent policy cr Hin Ha Ht.
    pose proof (CustomRulesFacts.fold_conditional_fires tz intent policy
                  (conditionalRules (rules policy)) (staticChecks tz intent policy)
                  cr Hin Ha Ht) as H.
    unfold CustomRulesFacts.HasViolation in H. unfold evaluateCustomRules. simpl.
    destruct (sViolations _); [congruence|reflexivity].
Qed.

Definition approvalRule : ConditionalRule :=
  {| condition := "amount > 50000"; action := RequireApproval; parameters := [] |}.

Lemma require_approval_is_violation_witness :
  pApproved (evaluateCustomRules 0
    (Samples.intentOf 60000 "Acme" "other" Samples.tuesday10)
    (Samples.policyOf ["Acme"] [] ∅ [approvalRule])) = false /\
  sRisk (conditionalStep 0 (Samples.intentOf 60000 "Acme" "other" Samples.tuesday10)
           (Samples.policyOf ["Acme"] [] ∅ [approvalRule])
           {| sViolations := []; sAppliedRules := []; sRisk := 0 |} approvalRule) = 10.
Proof.
  split.
  - apply (proj2 (proj2 require_approval_is_violation) 0
             (Samples.intentOf 60000 "Acme" "other" Samples.tuesday10)
             (Samples.policyOf ["Acme"] [] ∅ [approvalRule]) approvalRule);
      [left; reflexivity | reflexivity | vm_compute; reflexivity].
  - apply (proj1 (proj2 require_approval_is_violation) 0
             (Samples.intentOf 60000 "Acme" "other" Samples.tuesday10)
             (Samples.policyOf ["Acme"] [] ∅ [approvalRule])
             {| sViolations := []; sAppliedRules := []; sRisk := 0 |} approvalRule);
      [reflexivity | vm_compute; reflexivity].
Defined.

(** C6 (code defect): [ZkVMPolicyEngine.evaluateManually] checks the allow
    list without the non-empty guard of [evaluateCustomRules]: with the
    engine's own default policy ([allowedVendors = []]) an otherwise passing
    payment gets an allow-list violation worth 25 and is rejected. *)
Theorem allowlist_empty_manual_rejects :
  ZkVMPolicyEngine.evaluateManually 0
    (Samples.engineIntent 50000 "Acme" Samples.tuesday10)
    ZkVMPolicyEngine.getDefaultPolicy 0 0
  = {| ZkVMPolicyEngine.vApproved := false; ZkVMPolicyEngine.vRiskScore := 25;
       ZkVMPolicyEngine.vViolationCount := 1 |} /\
  pViolationCount (evaluateCustomRules 0
    (Samples.intentOf 50000 "Acme" "other" Samples.tuesday10)
    (Samples.policyOf [] [] ∅ [])) = 0.
Proof. vm_compute. auto. Qed.

(** C7, counterexample: [addConditionalRule] accepts a condition outside
    the seven supported predicates and appends it to the policy. *)
Lemma condition_validated_counterexample :
  match addConditionalRule Samples.heap0 1%positive "amount > 1" Reject []
          "1970-01-01T00:00:01.000Z" with
  | Some (h', l) =>
      l = 1%positive /\
      safeConditionsOwn "amount > 1" = None /\
      (fun p => map condition (conditionalRules (rules p))) <$> h' !! 1%positive
        = Some ["amount > 200000"; "vendor not in allowedVendors"; "amount > 1"]
  | None => False
  end.
Proof. vm_compute. auto. Qed.

(** C7, amended: [addConditionalRule] performs no validation: for every
    condition string it appends [{condition, action, parameters}] to the
    conditional rules of the policy object it is given, in place (only
    [updatedAt] changes besides; the version is untouched), and returns that
    same object. *)
Theorem conditional_rule_appended_unchecked :
  forall (h : Heap) (l : loc) (p : DynamicPolicy) (c : string) (a : RuleAction)
         (params : list (string * string)) (now : string),
    h !! l = Some p ->
    addConditionalRule h l c a params now
      = Some (<[l := pushConditionalRule
                       {| condition := c; action := a; parameters := params |}
                       now p]> h, l) /\
    conditionalRules (rules (pushConditionalRule
                               {| condition := c; action := a; parameters := params |}
                               now p))
      = (conditionalRules (rules p)
         ++ [{| condition := c; action := a; parameters := params |}])%list /\
    version (pushConditionalRule
               {| condition := c; action := a; parameters := params |} now p)
      = version p.
Proof.
  intros h l p c a params now H. unfold addConditionalRule. rewrite H.
  repeat split; reflexivity.
Qed.

Lemma conditional_rule_appended_unchecked_witness :
  Samples.heap0 !! 1%positive = Some Samples.defaultPolicy /\
  addConditionalRule Samples.heap0 1%positive "amount > 1" Reject [] "t"
    = Some (<[1%positive := pushConditionalRule
                 {| condition := "amount > 1"; action := Reject; parameters := [] |}
                 "t" Samples.defaultPolicy]> Samples.heap0, 1%positive).
Proof.
  split; [reflexivity|].
  apply (conditional_rule_appended_unchecked Samples.heap0 1%positive
           Samples.defaultPolicy "amount > 1" Reject [] "t").
  reflexivity.
Defined.

Definition cloudRule : CategoryRule :=
  {| maxAmount := Some 200000; requireApproval := Some false;
     additionalChecks := Some ["vendor-verification"] |}.

(** C8, counterexample: [addCustomRule] hands back the very object it was
    given, now changed, and its version is still ["1.0.0"]. *)
Lemma category_rule_copy_on_write_counterexample :
  match addCustomRule Samples.heap0 1%positive "cloud-services" cloudRule
          "1970-01-01T00:00:01.000Z" with
  | Some (h', l) =>
      l = 1%positive /\
      version <$> h' !! 1%positive = version <$> Samples.heap0 !! 1%positive /\
      h' !! 1%positive <> Samples.heap0 !! 1%positive
  | None => False
  end.
Proof.
  vm_compute. split; [reflexivity|]. split; [reflexivity|]. discriminate.
Qed.

(** C8, amended: [addCustomRule] mutates the policy object it is given:
    [customRules[category]] becomes [rule] and [updatedAt] is set, the
    version is unchanged, the same reference is returned and no other
    object changes. *)
Theorem category_rule_in_place :
  forall (h : Heap) (l : loc) (p : DynamicPolicy) (c : string)
         (r : CategoryRule) (now : string),
    h !! l = Some p ->
    addCustomRule h l c r now = Some (<[l := setCustomRule c r now p]> h, l) /\
    customRules (rules (setCustomRule c r now p)) !! c = Some r /\
    version (setCustomRule c r now p) = version p /\
    updatedAt (metadata (setCustomRule c r now p)) = now /\
    (forall l', l' <> l -> (<[l := setCustomRule c r now p]> h) !! l' = h !! l').
Proof.
  intros h l p c r now H. unfold addCustomRule. rewrite H.
  split; [reflexivity|]. split.
  - unfold setCustomRule; simpl. apply lookup_insert_eq.
  - split; [reflexivity|]. split; [reflexivity|].
    intros l' Hne. apply lookup_insert_ne. congruence.
Qed.

Lemma category_rule_in_place_witness :
  addCustomRule Samples.heap0 1%positive "cloud-services" cloudRule "t"
    = Some (<[1%positive := setCustomRule "cloud-services" cloudRule "t"
                              Samples.defaultPolicy]> Samples.heap0, 1%positive) /\
  version (setCustomRule "cloud-services" cloudRule "t" Samples.defaultPolicy)
    = "1.0.0".
Proof.
  destruct (category_rule_in_place Samples.heap0 1%positive Samples.defaultPolicy
              "cloud-services" cloudRule "t" ltac:(reflexivity)) as (Ha & _ & Hv & _).
  split; [exact Ha|]. rewrite Hv. reflexivity.
Defined.

Definition constructorRule : ConditionalRule :=
  {| condition := "constructor"; action := Reject; parameters := [] |}.

(** C10 (code defect): the lookup [safeConditions[condition]] also finds
    the members inherited from [Object.prototype]; the condition string
    ["constructor"], outside the seven whitelisted predicates, evaluates to
    the (truthy) context object, so a [reject] rule carrying it fires and
    rejects an otherwise approved payment. *)
Theorem constructor_condition_fires :
  safeConditionsOwn "constructor" = None /\
  evaluateCondition 0 "constructor"
    (Samples.intentOf 50000 "Acme" "other" Samples.tuesday10)
    (Samples.policyOf ["Acme"] [] ∅ [constructorRule]) = JS.JObj /\
  let e := evaluateCustomRules 0
             (Samples.intentOf 50000 "Acme" "other" Samples.tuesday10)
             (Samples.policyOf ["Acme"] [] ∅ [constructorRule]) in
  pApproved e = false /\ pRiskScore e = 30 /\
  pViolations e = ["条件分岐による拒否: constructor"].
Proof. vm_compute. auto. Qed.

End Claims.

(* ------------------------------------------------------------------ *)
(** ** Facts about the weekday bit masks *)

Module MaskFacts.

Lemma toInt32_small x : 0 <= x < 2 ^ 31 -> JS.toInt32 x = x.
Proof.
  intros H. unfold JS.toInt32. rewrite Z.mod_small by lia.
  destruct (Z.leb_spec (2 ^ 31) x); lia.
Qed.

Lemma lor_lt_pow2 a b n :
  0 <= n -> 0 <= a < 2 ^ n -> 0 <= b < 2 ^ n -> 0 <= Z.lor a b < 2 ^ n.
Proof.
  intros Hn Ha Hb. assert (Hl : 0 <= Z.lor a b) by (apply Z.lor_nonneg; lia).
  split; [exact Hl|].
  assert (Hs : Z.shiftr (Z.lor a b) n = 0).
  { rewrite Z.shiftr_lor, !Z.shiftr_div_pow2 by lia.
    rewrite (Z.div_small a), (Z.div_small b) by lia. reflexivity. }
  rewrite Z.shiftr_div_pow2 in Hs by lia.
  pose proof (Z.mod_pos_bound (Z.lor a b) (2 ^ n) ltac:(lia)).
  pose proof (Z.div_mod (Z.lor a b) (2 ^ n) ltac:(lia)). lia.
Qed.

(** One step of a mask loop, for a day in [0, n) and a mask below [2^n]. *)
Lemma bitOr_shl_step acc d n :
  n <= 31 -> 0 <= acc < 2 ^ n -> 0 <= d < n ->
  JS.bitOr acc (JS.shl 1 d) = Z.lor acc (2 ^ d).
Proof.
  intros Hn Hacc Hd.
  assert (Hp : 2 ^ d < 2 ^ n) by (apply Z.pow_lt_mono_r; lia).
  assert (Hn31 : 2 ^ n <= 2 ^ 31) by (apply Z.pow_le_mono_r; lia).
  assert (H2d : 0 < 2 ^ d) by (apply Z.pow_pos_nonneg; lia).
  unfold JS.bitOr, JS.shl.
  rewrite (toInt32_small 1) by lia.
  rewrite (Z.mod_small d 32) by lia.
  rewrite Z.shiftl_1_l.
  rewrite !(toInt32_small (2 ^ d)) by lia.
  rewrite (toInt32_small acc) by lia.
  apply toInt32_small.
  pose proof (lor_lt_pow2 acc (2 ^ d) n ltac:(lia) Hacc ltac:(lia)). lia.
Qed.

(** The shared shape of [createWeekdayMask] and of the weekday loop of
    [prepareInputData]. *)
Definition maskFold (pred : Z -> bool) (ws : list Z) (acc : Z) : Z :=
  fold_left (fun mask day => if pred day then JS.bitOr mask (JS.shl 1 day) else mask)
    ws acc.

Lemma maskFold_spec pred n ws acc :
  0 <= n <= 31 -> 0 <= acc < 2 ^ n ->
  (forall d, In d ws -> pred d = true -> 0 <= d < n) ->
  0 <= maskFold pred ws acc < 2 ^ n /\
  forall i, 0 <= i ->
    Z.testbit (maskFold pred ws acc) i
    = Z.testbit acc i || existsb (fun d => pred d && Z.eqb d i) ws.
Proof.
  revert acc. induction ws as [|d ws IH]; intros acc Hn Hacc Hws.
  - simpl. split; [exact Hacc|]. intros i _. by rewrite orb_false_r.
  - unfold maskFold; simpl. fold (maskFold pred ws).
    destruct (pred d) eqn:Ep.
    + assert (Hd : 0 <= d < n) by (apply Hws; [left|]; auto).
      rewrite (bitOr_shl_step acc d n) by lia.
      assert (Hp : 2 ^ d < 2 ^ n) by (apply Z.pow_lt_mono_r; lia).
      assert (H2 : 0 <= 2 ^ d) by (apply Z.pow_nonneg; lia).
      assert (Hb : 0 <= Z.lor acc (2 ^ d) < 2 ^ n) by (apply lor_lt_pow2; lia).
      destruct (IH (Z.lor acc (2 ^ d)) Hn Hb) as [IH1 IH2];
        [intros d' Hin; apply Hws; right; exact Hin|].
      split; [exact IH1|]. intros i Hi. rewrite IH2 by exact Hi.
      rewrite Z.lor_spec, Z.pow2_bits_eqb by lia. simpl.
      rewrite orb_assoc. reflexivity.
    + destruct (IH acc Hn Hacc) as [IH1 IH2];
        [intros d' Hin; apply Hws; right; exact Hin|].
      split; [exact IH1|]. intros i Hi. rewrite IH2 by exact Hi. reflexivity.
Qed.

Lemma createWeekdayMask_fold ws :
  IntegratedAIZkVM.createWeekdayMask ws
  = maskFold (fun d => Z.leb 0 d && Z.leb d 6) ws 0.
Proof. reflexivity. Qed.

Lemma weekdayMaskOf_fold ws :
  ZkVMPolicyEngine.weekdayMaskOf ws = maskFold (fun d => Z.ltb d 8) ws 0.
Proof. reflexivity. Qed.

Lemma existsb_create_bit ws i :
  0 <= i ->
  existsb (fun d => (Z.leb 0 d && Z.leb d 6) && Z.eqb d i) ws
  = Z.leb i 6 && existsb (Z.eqb i) ws.
Proof.
  intros Hi. induction ws as [|d ws IH]; simpl.
  - by rewrite andb_false_r.
  - rewrite IH. destruct (Z.eqb_spec d i) as [->|Hne].
    + rewrite Z.eqb_refl, andb_true_r.
      destruct (Z.leb_spec 0 i); [|lia]. destruct (Z.leb_spec i 6); reflexivity.
    + rewrite (proj2 (Z.eqb_neq i d)) by congruence.
      rewrite andb_false_r. reflexivity.
Qed.

Lemma existsb_engine_bit ws i :
  0 <= i ->
  existsb (fun d => Z.ltb d 8 && Z.eqb d i) ws
  = existsb (fun d => (Z.leb 0 d && Z.leb d 6) && Z.eqb d i) ws
    || (Z.eqb i 7 && existsb (Z.eqb 7) ws).
Proof.
  intros Hi. induction ws as [|d ws IH]; cbn [existsb]; [by rewrite andb_false_r|].
  rewrite IH.
  destruct (existsb (fun d => (Z.leb 0 d && Z.leb d 6) && Z.eqb d i) ws),
    (existsb (Z.eqb 7) ws);
  destruct (Z.eqb_spec d i) as [Heq|Hne];
  destruct (Z.ltb_spec d 8), (Z.leb_spec 0 d), (Z.leb_spec d 6),
    (Z.eqb_spec i 7), (Z.eqb_spec 7 d);
  cbn [orb andb]; try reflexivity; lia.
Qed.

End MaskFacts.

(* ------------------------------------------------------------------ *)
(** ** The conditional-rule loop, counted *)

Module LoopFacts.
Import IntegratedAIZkVM Updates.

Lemma conditionalStep_congr tz i p1 p2 s cr :
  (forall c, evaluateCondition tz c i p1 = evaluateCondition tz c i p2) ->
  conditionalStep tz i p1 s cr = conditionalStep tz i p2 s cr.
Proof. intros H. unfold conditionalStep. by rewrite H. Qed.

Lemma fold_conditional_congr tz i p1 p2 crs s :
  (forall c, evaluateCondition tz c i p1 = evaluateCondition tz c i p2) ->
  fold_left (conditionalStep tz i p1) crs s = fold_left (conditionalStep tz i p2) crs s.
Proof.
  intros H. revert s. induction crs as [|cr crs IH]; intros s; simpl; [reflexivity|].
  rewrite (conditionalStep_congr tz i p1 p2) by exact H. apply IH.
Qed.

Lemma conditionalStep_proj tz i p s cr :
  length (sViolations (conditionalStep tz i p s cr))
    = (length (sViolations s) + stepCount tz i p cr)%nat /\
  sRisk (conditionalStep tz i p s cr) = sRisk s + stepRisk tz i p cr.
Proof.
  unfold conditionalStep, stepCount, stepRisk.
  destruct (JS.truthy _); [|simpl; split; lia].
  destruct (action cr); simpl; rewrite ?length_app; simpl; split; lia.
Qed.

Lemma fold_conditional_proj tz i p crs s :
  length (sViolations (fold_left (conditionalStep tz i p) crs s))
    = (length (sViolations s) + sum_list (map (stepCount tz i p) crs))%nat /\
  sRisk (fold_left (conditionalStep tz i p) crs s)
    = sRisk s + sumZ (map (stepRisk tz i p) crs).
Proof.
  revert s. induction crs as [|cr crs IH]; intros s; simpl.
  - unfold sumZ; simpl. split; lia.
  - destruct (IH (conditionalStep tz i p s cr)) as [H1 H2].
    destruct (conditionalStep_proj tz i p s cr) as [H3 H4].
    rewrite H1, H2, H3, H4. unfold sumZ; simpl. split; lia.
Qed.

Lemma sum_list_perm (l l' : list nat) : Permutation l l' -> sum_list l = sum_list l'.
Proof. induction 1; simpl; lia. Qed.

Lemma sumZ_perm (l l' : list Z) : Permutation l l' -> sumZ l = sumZ l'.
Proof. unfold sumZ. induction 1; simpl; lia. Qed.

(** Only the violations and the risk feed the next step. *)
Definition VR (s : EvalState) : list string * Z := (sViolations s, sRisk s).

Lemma conditionalStep_VR tz i p s1 s2 cr :
  VR s1 = VR s2 -> VR (conditionalStep tz i p s1 cr) = VR (conditionalStep tz i p s2 cr).
Proof.
  unfold VR. intros H. injection H as H1 H2.
  unfold conditionalStep. destruct (JS.truthy _); [|simpl; congruence].
  destruct (action cr); simpl; congruence.
Qed.

Lemma fold_conditional_VR tz i p crs s1 s2 :
  VR s1 = VR s2 ->
  VR (fold_left (conditionalStep tz i p) crs s1)
  = VR (fold_left (conditionalStep tz i p) crs s2).
Proof.
  revert s1 s2. induction crs as [|cr crs IH]; intros s1 s2 H; simpl; [exact H|].
  apply IH, conditionalStep_VR, H.
Qed.

Lemma fold_conditional_filter_approve tz i p crs s1 s2 :
  VR s1 = VR s2 ->
  VR (fold_left (conditionalStep tz i p)
        (List.filter (fun cr => negb (isApprove (action cr))) crs) s1)
  = VR (fold_left (conditionalStep tz i p) crs s2).
Proof.
  revert s1 s2. induction crs as [|cr crs IH]; intros s1 s2 H; simpl; [exact H|].
  destruct (action cr) eqn:Ea; simpl.
  - apply IH. unfold conditionalStep. rewrite Ea.
    destruct (JS.truthy _); exact H.
  - apply IH, conditionalStep_VR, H.
  - apply IH, conditionalStep_VR, H.
Qed.

(** Every recorded violation carries at least 10 risk points. *)
Definition Inv10 (s : EvalState) : Prop :=
  10 * Z.of_nat (length (sViolations s)) <= sRisk s.

Lemma pushViolation_inv10 msg w s :
  10 <= w -> Inv10 s -> Inv10 (pushViolation msg w s).
Proof. unfold Inv10, pushViolation; simpl. rewrite length_app; simpl. lia. Qed.

Lemma pushApplied_inv10 r s : Inv10 s -> Inv10 (pushApplied r s).
Proof. auto. Qed.

Lemma staticChecks_inv10 tz i p : Inv10 (staticChecks tz i p).
Proof.
  unfold staticChecks.
  assert (H0 : Inv10 {| sViolations := []; sAppliedRules := []; sRisk := 0 |})
    by (unfold Inv10; simpl; lia).
  repeat match goal with
         | |- Inv10 (match ?x with _ => _ end) => destruct x
         | |- Inv10 (pushApplied _ _) => apply pushApplied_inv10
         | |- Inv10 (pushViolation _ _ _) => apply pushViolation_inv10; [lia|]
         end; exact H0.
Qed.

Lemma conditionalStep_inv10 tz i p s cr :
  Inv10 s -> Inv10 (conditionalStep tz i p s cr).
Proof.
  intros H. unfold conditionalStep. destruct (JS.truthy _); [|exact H].
  destruct (action cr); [apply pushApplied_inv10, H| |];
    apply pushViolation_inv10; [lia| |lia|]; apply pushApplied_inv10, H.
Qed.

Lemma fold_conditional_inv10 tz i p crs s :
  Inv10 s -> Inv10 (fold_left (conditionalStep tz i p) crs s).
Proof.
  revert s. induction crs as [|cr crs IH]; intros s H; simpl; auto.
  apply IH, conditionalStep_inv10, H.
Qed.

End LoopFacts.

(* ------------------------------------------------------------------ *)
(** ** Strings, output parsing and policy edits *)

Module MiscFacts.
Import IntegratedAIZkVM Updates.

Lemma startsWith_app s t p :
  JS.startsWith s p = true -> JS.startsWith (s ++ t) p = true.
Proof.
  revert s. induction p as [|c p IH]; intros s H; [destruct (s ++ t); reflexivity|].
  destruct s as [|d s]; [discriminate|]. simpl in *.
  apply andb_prop in H as [H1 H2]. rewrite H1. simpl. apply IH, H2.
Qed.

Lemma includes_cons c s p :
  JS.includes (String c s) p = JS.startsWith (String c s) p || JS.includes s p.
Proof. reflexivity. Qed.

Lemma includes_app_l s t p :
  JS.includes s p = true -> JS.includes (s ++ t) p = true.
Proof.
  induction s as [|c s IH]; intros H.
  - simpl in H. rewrite orb_false_r in H.
    destruct p; [|discriminate]. destruct t; reflexivity.
  - rewrite includes_cons in H.
    change (String c s ++ t)%string with (String c (s ++ t)).
    rewrite includes_cons. apply orb_prop in H as [H|H].
    + change (String c (s ++ t)) with (String c s ++ t)%string.
      rewrite (startsWith_app _ _ _ H). reflexivity.
    + rewrite (IH H). apply orb_true_r.
Qed.

Lemma includes_app_r a s p :
  JS.includes s p = true -> JS.includes (a ++ s) p = true.
Proof.
  induction a as [|c a IH]; intros H; [exact H|].
  change (String c a ++ s)%string with (String c (a ++ s)).
  rewrite includes_cons, (IH H). apply orb_true_r.
Qed.

Lemma splitOn_cons sep s :
  exists w ws b, JS.splitOn sep s = w :: ws /\ s = (w ++ b)%string.
Proof.
  induction s as [|c s IH].
  - exists "", [], "". split; reflexivity.
  - destruct IH as (w & ws & b & Hs & Hb). simpl. rewrite Hs.
    destruct (Ascii.eqb c sep).
    + exists "", (w :: ws), (String c s). split; reflexivity.
    + exists (String c w), ws, b. split; [reflexivity|]. rewrite Hb. reflexivity.
Qed.

Lemma splitOn_infix sep s w :
  In w (JS.splitOn sep s) -> exists a b, s = (a ++ w ++ b)%string.
Proof.
  revert w. induction s as [|c s IH]; intros w Hin.
  - destruct Hin as [<-|[]]. exists "", "". reflexivity.
  - simpl in Hin. destruct (splitOn_cons sep s) as (w0 & ws & b0 & Hs & Hb).
    rewrite Hs in Hin. destruct (Ascii.eqb c sep).
    + destruct Hin as [<-|Hin].
      * exists "", (String c s). reflexivity.
      * rewrite <- Hs in Hin. destruct (IH w Hin) as (a & b & ->).
        exists (String c a), b. reflexivity.
    + destruct Hin as [<-|Hin].
      * exists "", b0. rewrite Hb. reflexivity.
      * assert (Hin' : In w (JS.splitOn sep s)) by (rewrite Hs; right; exact Hin).
        destruct (IH w Hin') as (a & b & ->). exists (String c a), b. reflexivity.
Qed.

Lemma fold_scanLine_approved_iff lines st :
  ZkVMPolicyEngine.vApproved (fold_left ZkVMPolicyEngine.scanLine lines st)
  = ZkVMPolicyEngine.vApproved st
    || existsb (fun l => JS.includes l "Approved: true") lines.
Proof.
  revert st. induction lines as [|l lines IH]; intros st; simpl.
  - by rewrite orb_false_r.
  - rewrite IH. unfold ZkVMPolicyEngine.scanLine; simpl.
    destruct (JS.includes l "Approved: true"); simpl;
      [rewrite orb_true_r|]; reflexivity.
Qed.

Lemma lowerAscii_idem c : JS.lowerAscii (JS.lowerAscii c) = JS.lowerAscii c.
Proof. destruct c as [[] [] [] [] [] [] [] []]; reflexivity. Qed.

Lemma toLowerCase_idem s : JS.toLowerCase (JS.toLowerCase s) = JS.toLowerCase s.
Proof. induction s as [|c s IH]; simpl; [reflexivity|]. by rewrite lowerAscii_idem, IH. Qed.

Lemma categorizeVendor_cases s :
  In (categorizeVendor s) ["utilities"; "software"; "consulting"; "other"].
Proof.
  unfold categorizeVendor.
  destruct (_ || _ || _); [left; reflexivity|].
  destruct (_ || _ || _); [right; left; reflexivity|].
  destruct (_ || _); [right; right; left; reflexivity|].
  right; right; right; left; reflexivity.
Qed.

(** A rejecting [evaluateCustomRules] makes [evaluateWithZkVM] reject in
    every environment. *)
Lemma evaluateWithZkVM_rejects env i p :
  pApproved (evaluateCustomRules (localOffset env) i p) = false ->
  approved (evaluateWithZkVM env i p) = false.
Proof.
  intros H. unfold evaluateWithZkVM. cbv zeta.
  destruct (zkVMBinaryExists env), (paramsFileWritten env); cbn [negb]; try exact H.
  destruct (zkVMExec env); [exact H|].
  unfold withProof, combineResults; cbn [approved pApproved]. rewrite H. reflexivity.
Qed.

Lemma evaluateCustomRules_fold_has tz i p :
  CustomRulesFacts.HasViolation
    (fold_left (conditionalStep tz i p) (conditionalRules (rules p)) (staticChecks tz i p)) ->
  pApproved (evaluateCustomRules tz i p) = false.
Proof.
  unfold CustomRulesFacts.HasViolation, evaluateCustomRules. simpl.
  destruct (sViolations _); [congruence|reflexivity].
Qed.

(** The defaults of [createDynamicPolicy] survive every edit: the allow
    list stays empty and the [vendor not in allowedVendors] rule stays. *)
Definition VendorGate (p : DynamicPolicy) : Prop :=
  allowedVendors (rules p) = [] /\
  exists cr, In cr (conditionalRules (rules p)) /\
             condition cr = "vendor not in allowedVendors" /\
             action cr = RequireApproval.

Lemma createDynamicPolicy_gate u ms iso ur :
  VendorGate (createDynamicPolicy u ms iso ur).
Proof.
  split; [reflexivity|].
  eexists. split; [right; left; reflexivity|]. split; reflexivity.
Qed.

Lemma applyEdit_gate p e : VendorGate p -> VendorGate (applyEdit p e).
Proof.
  intros [Ha (cr & Hin & Hc & Hact)]. destruct e; simpl.
  - split; [exact Ha|]. exists cr. auto.
  - split; [exact Ha|]. exists cr. split; [|auto].
    apply in_or_app. left. exact Hin.
Qed.

Lemma edits_gate edits p : VendorGate p -> VendorGate (fold_left applyEdit edits p).
Proof.
  revert p. induction edits as [|e edits IH]; intros p H; simpl; [exact H|].
  apply IH, applyEdit_gate, H.
Qed.

Lemma vendorGate_rejects tz i p :
  VendorGate p -> pApproved (evaluateCustomRules tz i p) = false.
Proof.
  intros [Ha (cr & Hin & Hc & Hact)].
  apply evaluateCustomRules_fold_has.
  apply (CustomRulesFacts.fold_conditional_fires tz i p _ _ cr Hin Hact).
  rewrite Hc. unfold evaluateCondition, safeEvaluateCondition.
  rewrite Ha. reflexivity.
Qed.

Lemma runEdit_gate h l e h' l' :
  (exists p, h !! l = Some p /\ VendorGate p) ->
  runEdit h l e = Some (h', l') ->
  l' = l /\ exists p', h' !! l = Some p' /\ VendorGate p'.
Proof.
  intros (p & Hp & Hg) He. destruct e as [c r now|cr now]; simpl in He.
  - unfold addCustomRule in He. rewrite Hp in He. injection He as <- <-.
    split; [reflexivity|]. exists (applyEdit p (EditCustomRule c r now)).
    split; [apply lookup_insert_eq|apply applyEdit_gate, Hg].
  - unfold addConditionalRule in He. rewrite Hp in He. injection He as <- <-.
    split; [reflexivity|]. exists (applyEdit p (EditConditionalRule cr now)).
    split; [|apply applyEdit_gate, Hg].
    destruct cr; apply lookup_insert_eq.
Qed.

Lemma runEdits_gate es h l h' l' :
  (exists p, h !! l = Some p /\ VendorGate p) ->
  runEdits h l es = Some (h', l') ->
  l' = l /\ exists p', h' !! l = Some p' /\ VendorGate p'.
Proof.
  revert h l. induction es as [|e es IH]; intros h l Hg He; simpl in He.
  - injection He as <- <-. split; [reflexivity|exact Hg].
  - destruct (runEdit h l e) as [[h1 l1]|] eqn:E1; [|discriminate].
    destruct (runEdit_gate h l e h1 l1 Hg E1) as [-> Hg1].
    apply (IH h1 l Hg1 He).
Qed.

Lemma host_output_not_approved out :
  JS.includes out "Approved: true" = false ->
  ZkVMPolicyEngine.vApproved (ZkVMPolicyEngine.executeZkVMHost out) = false.
Proof.
  intros Hno. unfold ZkVMPolicyEngine.executeZkVMHost.
  rewrite fold_scanLine_approved_iff. cbn [ZkVMPolicyEngine.vApproved orb].
  destruct (existsb _ _) eqn:Ex; [|reflexivity].
  apply existsb_exists in Ex as (l & Hin & Hl).
  destruct (splitOn_infix JS.newline out l Hin) as (a & b & ->).
  rewrite (includes_app_r a _ _ (includes_app_l l b _ Hl)) in Hno.
  discriminate.
Qed.

End MiscFacts.

(* ------------------------------------------------------------------ *)
(** ** [evaluateCustomRules] through its loop state *)

Module EvalFacts.
Import IntegratedAIZkVM Updates.

(** A policy that differs from [p] only in what the loop iterates over
    evaluates like the loop over that list under [p]. *)
Lemma eval_congr tz i p p' crs :
  conditionalRules (rules p') = crs ->
  staticChecks tz i p' = staticChecks tz i p ->
  (forall c, evaluateCondition tz c i p' = evaluateCondition tz c i p) ->
  let s := fold_left (conditionalStep tz i p) crs (staticChecks tz i p) in
  let e := evaluateCustomRules tz i p' in
  pApproved e = Nat.eqb (length (sViolations s)) 0 /\
  pRiskScore e = Z.min (sRisk s) 100 /\
  pViolationCount e = Z.of_nat (length (sViolations s)) /\
  pViolations e = sViolations s.
Proof.
  intros Hc Hs He s e.
  assert (H : fold_left (conditionalStep tz i p') (conditionalRules (rules p'))
                (staticChecks tz i p') = s).
  { rewrite Hc, Hs. apply LoopFacts.fold_conditional_congr, He. }
  unfold e, evaluateCustomRules. rewrite H. repeat split.
Qed.

Lemma eval_self tz i p :
  let s := fold_left (conditionalStep tz i p) (conditionalRules (rules p))
             (staticChecks tz i p) in
  let e := evaluateCustomRules tz i p in
  pApproved e = Nat.eqb (length (sViolations s)) 0 /\
  pRiskScore e = Z.min (sRisk s) 100 /\
  pViolationCount e = Z.of_nat (length (sViolations s)) /\
  pViolations e = sViolations s.
Proof. repeat split. Qed.

Lemma stepRisk_nonneg tz i p cr : 0 <= stepRisk tz i p cr.
Proof. unfold stepRisk. destruct (JS.truthy _); [destruct (action cr)|]; lia. Qed.

End EvalFacts.

(* ------------------------------------------------------------------ *)
(** ** Further properties of the code *)

Module Extras.
Import IntegratedAIZkVM Updates.

(** An environment in which the zkVM host runs and prints an approval. *)
Definition approvingEnv : Env :=
  {| localOffset := 0; zkVMBinaryExists := true; paramsFileWritten := true;
     zkVMExec := ExecResolves "Approved: true" ""; elapsed := 5 |}.

(** Policy edits used by the witnesses below. *)
Definition sampleEdits : list PolicyEdit :=
  [ EditCustomRule "cloud-services"
      {| maxAmount := Some 200000; requireApproval := Some false;
         additionalChecks := None |} "t1";
    EditConditionalRule
      {| condition := "amount > 50000"; action := Approve; parameters := [] |} "t2" ].

(** [createDynamicPolicy] followed by any sequence of [addCustomRule] and
    [addConditionalRule] calls on the returned object gives a policy under
    which [evaluateCustomRules] rejects every payment, and so does
    [evaluateWithZkVM] in every environment: the default allow list is
    empty, the default [vendor not in allowedVendors] rule (action
    [require_approval]) therefore fires for every vendor, and neither edit
    can remove that rule or fill the allow list. *)
Theorem dynamic_policy_never_approves :
  forall (u : string) (ms : Z) (iso : string) (ur : gmap string CategoryRule)
         (l : loc) (es : list PolicyEdit) (h' : Heap) (l' : loc),
    runEdits {[ l := createDynamicPolicy u ms iso ur ]} l es = Some (h', l') ->
    l' = l /\
    exists p, h' !! l = Some p /\
      forall (env : Env) (i : PaymentIntent),
        pApproved (evaluateCustomRules (localOffset env) i p) = false /\
        approved (evaluateWithZkVM env i p) = false.
Proof.
  intros u ms iso ur l es h' l' Hr.
  destruct (MiscFacts.runEdits_gate es {[ l := createDynamicPolicy u ms iso ur ]}
              l h' l') as [-> (p & Hp & Hg)]; [|exact Hr|].
  - eexists. split; [apply lookup_insert_eq|apply MiscFacts.createDynamicPolicy_gate].
  - split; [reflexivity|]. exists p. split; [exact Hp|].
    intros env i.
    assert (H : pApproved (evaluateCustomRules (localOffset env) i p) = false)
      by (apply MiscFacts.vendorGate_rejects, Hg).
    split; [exact H|]. apply MiscFacts.evaluateWithZkVM_rejects, H.
Qed.

Lemma dynamic_policy_never_approves_witness :
  exists h',
    runEdits {[ 1%positive := createDynamicPolicy "alice" 0 "t0" ∅ ]} 1%positive
      sampleEdits = Some (h', 1%positive) /\
    exists p, h' !! 1%positive = Some p /\
      approved (evaluateWithZkVM approvingEnv
                  (Samples.intentOf 1000 "Acme" "other" Samples.tuesday10) p) = false.
Proof.
  eexists. split; [vm_compute; reflexivity|].
  destruct (dynamic_policy_never_approves "alice" 0 "t0" ∅ 1%positive sampleEdits
              _ 1%positive ltac:(vm_compute; reflexivity)) as [_ (p & Hp & Hall)].
  exists p. split; [exact Hp|]. apply (Hall approvingEnv).
Defined.

(** A vendor on the block list is rejected by [evaluateWithZkVM] in every
    environment, whatever the zkVM prints and whether or not the vendor is
    also on the allow list: the block-list violation makes the manual
    result reject and the combination is a conjunction. *)
Theorem blocked_vendor_never_approved :
  forall (env : Env) (i : PaymentIntent) (p : DynamicPolicy),
    JS.arrIncludes (blockedVendors (rules p)) (vendor i) = true ->
    approved (evaluateWithZkVM env i p) = false.
Proof.
  intros env i p Hb.
  apply MiscFacts.evaluateWithZkVM_rejects, CustomRulesFacts.evaluateCustomRules_has,
        CustomRulesFacts.staticChecks_blocked, Hb.
Qed.

Lemma blocked_vendor_never_approved_witness :
  JS.arrIncludes ["bad.example"] "bad.example" = true /\
  approved (evaluateWithZkVM approvingEnv
              (Samples.intentOf 1000 "bad.example" "other" Samples.tuesday10)
              (Samples.policyOf ["bad.example"] ["bad.example"] ∅ [])) = false.
Proof.
  split; [reflexivity|]. apply blocked_vendor_never_approved. reflexivity.
Defined.

(** The result of [evaluateCustomRules] is consistent: the risk score lies
    in [0, 100], is at least ten points per violation (up to the cap), is
    zero exactly when there is no violation, and approval means zero
    violations. *)
Theorem custom_rules_risk_bounds :
  forall (tz : Z) (i : PaymentIntent) (p : DynamicPolicy),
    let e := evaluateCustomRules tz i p in
    0 <= pRiskScore e <= 100 /\
    Z.min (10 * pViolationCount e) 100 <= pRiskScore e /\
    (pRiskScore e = 0 <-> pViolationCount e = 0) /\
    pApproved e = Z.eqb (pViolationCount e) 0.
Proof.
  intros tz i p e.
  destruct (EvalFacts.eval_self tz i p) as (A & R & C & _). fold e in A, R, C.
  rewrite A, R, C.
  set (s := fold_left (conditionalStep tz i p) (conditionalRules (rules p))
              (staticChecks tz i p)).
  pose proof (CustomRulesFacts.evaluateCustomRules_inv tz i p) as [H0 H1].
  fold s in H0, H1.
  pose proof (LoopFacts.fold_conditional_inv10 tz i p (conditionalRules (rules p)) _
                (LoopFacts.staticChecks_inv10 tz i p)) as H10.
  fold s in H10. unfold LoopFacts.Inv10 in H10.
  assert (Hn : length (sViolations s) = 0%nat -> sRisk s = 0)
    by (intros Hl; apply H1, length_zero_iff_nil, Hl).
  destruct (length (sViolations s)) as [|n].
  - specialize (Hn eq_refl). simpl. repeat split; lia.
  - simpl in H10 |- *. repeat split; lia.
Qed.

(** The same bounds hold for [ZkVMPolicyEngine.evaluateManually], which in
    addition records at most six violations (one per check). *)
Theorem manual_risk_bounds :
  forall (tz : Z) (i : ZkVMPolicyEngine.PaymentIntent)
         (p : ZkVMPolicyEngine.PolicyRules) (c w : Z),
    let v := ZkVMPolicyEngine.evaluateManually tz i p c w in
    0 <= ZkVMPolicyEngine.vViolationCount v <= 6 /\
    Z.min (10 * ZkVMPolicyEngine.vViolationCount v) 100 <= ZkVMPolicyEngine.vRiskScore v /\
    ZkVMPolicyEngine.vRiskScore v <= 100 /\
    (ZkVMPolicyEngine.vRiskScore v = 0 <-> ZkVMPolicyEngine.vViolationCount v = 0).
Proof.
  intros tz i p c w v. unfold v, ZkVMPolicyEngine.evaluateManually, ZkVMPolicyEngine.bump.
  cbv zeta.
  repeat match goal with |- context [if ?b then _ else _] => destruct b end;
    cbn [fst snd ZkVMPolicyEngine.vViolationCount ZkVMPolicyEngine.vRiskScore];
    repeat split; intros; lia.
Qed.

(** Conditional rules whose action is [approve] have no effect on the
    verdict: removing all of them leaves the approval, the risk score and
    the violations of [evaluateCustomRules] unchanged (only the list of
    applied rules differs). *)
Theorem approve_rules_inert :
  forall (tz : Z) (i : PaymentIntent) (p : DynamicPolicy),
    let p' := updRules (setConditionalRules
                (List.filter (fun cr => negb (isApprove (action cr)))
                   (conditionalRules (rules p)))) p in
    let e := evaluateCustomRules tz i p in
    let e' := evaluateCustomRules tz i p' in
    pApproved e' = pApproved e /\ pRiskScore e' = pRiskScore e /\
    pViolationCount e' = pViolationCount e /\ pViolations e' = pViolations e.
Proof.
  intros tz i p p' e e'.
  destruct (EvalFacts.eval_congr tz i p p'
              (List.filter (fun cr => negb (isApprove (action cr)))
                 (conditionalRules (rules p))) eq_refl eq_refl (fun _ => eq_refl))
    as (A' & R' & C' & V').
  destruct (EvalFacts.eval_self tz i p) as (A & R & C & V).
  fold e' in A', R', C', V'. fold e in A, R, C, V.
  pose proof (LoopFacts.fold_conditional_filter_approve tz i p (conditionalRules (rules p))
                (staticChecks tz i p) (staticChecks tz i p) eq_refl) as H.
  unfold LoopFacts.VR in H. injection H as H1 H2.
  rewrite A', R', C', V', A, R, C, V, H1, H2. repeat split.
Qed.

(** The order of the conditional rules does not matter for the verdict:
    any permutation of them gives the same approval, risk score and
    violation count (the violation messages come in another order). *)
Theorem conditional_rule_order_irrelevant :
  forall (tz : Z) (i : PaymentIntent) (p : DynamicPolicy) (crs : list ConditionalRule),
    Permutation (conditionalRules (rules p)) crs ->
    let e := evaluateCustomRules tz i p in
    let e' := evaluateCustomRules tz i (updRules (setConditionalRules crs) p) in
    pApproved e' = pApproved e /\ pRiskScore e' = pRiskScore e /\
    pViolationCount e' = pViolationCount e.
Proof.
  intros tz i p crs Hp e e'.
  destruct (EvalFacts.eval_congr tz i p (updRules (setConditionalRules crs) p) crs
              eq_refl eq_refl (fun _ => eq_refl)) as (A' & R' & C' & _).
  destruct (EvalFacts.eval_self tz i p) as (A & R & C & _).
  fold e' in A', R', C'. fold e in A, R, C.
  rewrite A', R', C', A, R, C.
  destruct (LoopFacts.fold_conditional_proj tz i p crs (staticChecks tz i p)) as [L1 S1].
  destruct (LoopFacts.fold_conditional_proj tz i p (conditionalRules (rules p))
              (staticChecks tz i p)) as [L2 S2].
  rewrite L1, S1, L2, S2.
  rewrite (LoopFacts.sum_list_perm (map (stepCount tz i p) crs)
             (map (stepCount tz i p) (conditionalRules (rules p))))
    by (apply Permutation_map; symmetry; exact Hp).
  rewrite (LoopFacts.sumZ_perm (map (stepRisk tz i p) crs)
             (map (stepRisk tz i p) (conditionalRules (rules p))))
    by (apply Permutation_map; symmetry; exact Hp).
  repeat split.
Qed.

Definition vendorRule : ConditionalRule :=
  {| condition := "vendor not in allowedVendors"; action := RequireApproval;
     parameters := [] |}.

Definition amountRule : ConditionalRule :=
  {| condition := "amount > 50000"; action := Reject; parameters := [] |}.

Lemma conditional_rule_order_irrelevant_witness :
  Permutation [vendorRule; amountRule] [amountRule; vendorRule] /\
  pRiskScore (evaluateCustomRules 0
    (Samples.intentOf 60000 "Acme" "other" Samples.tuesday10)
    (updRules (setConditionalRules [amountRule; vendorRule])
       (Samples.policyOf ["Other"] [] ∅ [vendorRule; amountRule])))
  = pRiskScore (evaluateCustomRules 0
    (Samples.intentOf 60000 "Acme" "other" Samples.tuesday10)
    (Samples.policyOf ["Other"] [] ∅ [vendorRule; amountRule])).
Proof.
  assert (Hp : Permutation [vendorRule; amountRule] [amountRule; vendorRule])
    by apply perm_swap.
  split; [exact Hp|].
  apply (conditional_rule_order_irrelevant 0
           (Samples.intentOf 60000 "Acme" "other" Samples.tuesday10)
           (Samples.policyOf ["Other"] [] ∅ [vendorRule; amountRule])
           [amountRule; vendorRule] Hp).
Defined.

(** [addConditionalRule] can only tighten a policy: the edited policy
    object approves a payment only if the old one did, its risk score and
    violation count are not lower, and its violations extend the old
    ones. *)
Theorem add_conditional_rule_only_tightens :
  forall (h : Heap) (l : loc) (p : DynamicPolicy) (c : string) (a : RuleAction)
         (params : list (string * string)) (now : string),
    h !! l = Some p ->
    exists p',
      addConditionalRule h l c a params now = Some (<[l := p']> h, l) /\
      forall (tz : Z) (i : PaymentIntent),
        let e := evaluateCustomRules tz i p in
        let e' := evaluateCustomRules tz i p' in
        (pApproved e' = true -> pApproved e = true) /\
        pRiskScore e <= pRiskScore e' /\
        pViolationCount e <= pViolationCount e' /\
        exists extra, pViolations e' = (pViolations e ++ extra)%list.
Proof.
  intros h l p c a params now Hl.
  set (cr := {| condition := c; action := a; parameters := params |}).
  exists (pushConditionalRule cr now p). split.
  { unfold addConditionalRule. rewrite Hl. reflexivity. }
  intros tz i e e'.
  destruct (EvalFacts.eval_congr tz i p (pushConditionalRule cr now p)
              (conditionalRules (rules p) ++ [cr])%list eq_refl eq_refl
              (fun _ => eq_refl)) as (A' & R' & C' & V').
  destruct (EvalFacts.eval_self tz i p) as (A & R & C & V).
  fold e' in A', R', C', V'. fold e in A, R, C, V.
  rewrite A', R', C', V', A, R, C, V.
  rewrite fold_left_app. simpl.
  set (s := fold_left (conditionalStep tz i p) (conditionalRules (rules p))
              (staticChecks tz i p)).
  destruct (LoopFacts.conditionalStep_proj tz i p s cr) as [L S].
  pose proof (EvalFacts.stepRisk_nonneg tz i p cr).
  rewrite L, S. split; [|split; [lia|split; [lia|]]].
  - intros Ha. apply Nat.eqb_eq in Ha. apply Nat.eqb_eq. lia.
  - apply CustomRulesFacts.conditionalStep_extends.
Qed.

Lemma add_conditional_rule_only_tightens_witness :
  Samples.heap0 !! 1%positive = Some Samples.defaultPolicy /\
  exists p',
    addConditionalRule Samples.heap0 1%positive "amount > 50000" Reject [] "t"
      = Some (<[1%positive := p']> Samples.heap0, 1%positive).
Proof.
  split; [reflexivity|].
  destruct (add_conditional_rule_only_tightens Samples.heap0 1%positive
              Samples.defaultPolicy "amount > 50000" Reject [] "t" eq_refl)
    as (p' & Hadd & _).
  exists p'. exact Hadd.
Defined.

(** The daily limit, the weekly limit and the allowed weekdays of a
    dynamic policy are never read by [evaluateCustomRules] (changing them
    leaves its result unchanged); they reach only the zkVM parameter file. *)
Theorem custom_rules_ignore_zkvm_only_fields :
  forall (tz : Z) (i : PaymentIntent) (p : DynamicPolicy) (d w : Z) (ws : list Z)
         (hash : string -> Z) (now : Z),
    evaluateCustomRules tz i (updRules (setDayWeekLimits d w ws) p)
      = evaluateCustomRules tz i p /\
    Params.max_per_day (createZkVMParams hash i (updRules (setDayWeekLimits d w ws) p) now) = d /\
    Params.max_per_week (createZkVMParams hash i (updRules (setDayWeekLimits d w ws) p) now) = w /\
    Params.allowed_weekday_mask
      (createZkVMParams hash i (updRules (setDayWeekLimits d w ws) p) now)
      = createWeekdayMask ws.
Proof. intros. repeat split. Qed.

(** After a zkVM run that exits normally, [evaluateWithZkVM] keeps the
    violations and the violation count of [evaluateCustomRules] (the zkVM
    contributes none), appends the rule name ["zkVM暗号学的証明"], and takes
    as risk score the larger of the manual score and the number printed
    after ["Risk Score: "], which is not capped at 100. *)
Theorem zkvm_success_merges_manual :
  forall (env : Env) (i : PaymentIntent) (p : DynamicPolicy) (out err : string),
    zkVMBinaryExists env = true -> paramsFileWritten env = true ->
    zkVMExec env = ExecResolves out err ->
    let pre := evaluateCustomRules (localOffset env) i p in
    let e := evaluateWithZkVM env i p in
    violations e = pViolations pre /\
    violationCount e = pViolationCount pre /\
    riskScore e = Z.max (pRiskScore pre)
                    (match JS.matchDigitsAfter "Risk Score: " out with
                     | Some d => JS.parseInt d | None => 0 end) /\
    appliedRules e = (pAppliedRules pre ++ ["zkVM暗号学的証明"])%list /\
    proofGenerated e = true.
Proof.
  intros env i p out err H1 H2 H3 pre e. unfold e, evaluateWithZkVM. cbv zeta.
  rewrite H1, H2, H3. fold pre.
  unfold withProof, combineResults, executeZkVMWithParams.
  cbn [violations violationCount riskScore appliedRules proofGenerated
       pViolations pViolationCount pRiskScore pAppliedRules
       zViolations zRiskScore default].
  rewrite app_nil_r. repeat split.
Qed.

Lemma zkvm_success_merges_manual_witness :
  riskScore (evaluateWithZkVM
    {| localOffset := 0; zkVMBinaryExists := true; paramsFileWritten := true;
       zkVMExec := ExecResolves "Risk Score: 250" ""; elapsed := 5 |}
    (Samples.intentOf 1000 "Acme" "other" Samples.tuesday10)
    (Samples.policyOf ["Acme"] [] ∅ [])) = 250.
Proof.
  destruct (zkvm_success_merges_manual
              {| localOffset := 0; zkVMBinaryExists := true; paramsFileWritten := true;
                 zkVMExec := ExecResolves "Risk Score: 250" ""; elapsed := 5 |}
              (Samples.intentOf 1000 "Acme" "other" Samples.tuesday10)
              (Samples.policyOf ["Acme"] [] ∅ []) "Risk Score: 250" ""
              eq_refl eq_refl eq_refl) as (_ & _ & Hr & _).
  rewrite Hr. vm_compute. reflexivity.
Defined.

(** Every result of [evaluateWithZkVM] is internally consistent: the
    violation count is the length of the violation list, and an approved
    result has no violations and a non-negative risk score. *)
Theorem zkvm_evaluation_consistent :
  forall (env : Env) (i : PaymentIntent) (p : DynamicPolicy),
    let e := evaluateWithZkVM env i p in
    violationCount e = Z.of_nat (length (violations e)) /\
    (approved e = true -> violations e = [] /\ 0 <= riskScore e).
Proof.
  intros env i p e.
  destruct (EvalFacts.eval_self (localOffset env) i p) as (A & R & C & V).
  pose proof (CustomRulesFacts.evaluateCustomRules_inv (localOffset env) i p) as [H0 _].
  set (s := fold_left (conditionalStep (localOffset env) i p)
              (conditionalRules (rules p)) (staticChecks (localOffset env) i p)) in *.
  unfold e, evaluateWithZkVM. cbv zeta.
  destruct (zkVMBinaryExists env), (paramsFileWritten env); cbn [negb];
    [destruct (zkVMExec env) as [|out err]| | |];
    unfold withProof; cbn [violationCount violations approved riskScore];
    try (unfold combineResults; cbn [pViolationCount pViolations pApproved pRiskScore]);
    rewrite ?C, ?V, ?A, ?R; (split; [reflexivity|]);
    try (intros Ha; apply Nat.eqb_eq, length_zero_iff_nil in Ha; split; [exact Ha|lia]).
  intros Ha. apply andb_prop in Ha as [Ha _].
  apply Nat.eqb_eq, length_zero_iff_nil in Ha. rewrite Ha. split; [reflexivity|lia].
Qed.

Lemma zkvm_evaluation_consistent_witness :
  violations (evaluateWithZkVM approvingEnv
    (Samples.intentOf 1000 "Acme" "other" Samples.tuesday10)
    (Samples.policyOf ["Acme"] [] ∅ [])) = [].
Proof.
  destruct (zkvm_evaluation_consistent approvingEnv
              (Samples.intentOf 1000 "Acme" "other" Samples.tuesday10)
              (Samples.policyOf ["Acme"] [] ∅ [])) as [_ H].
  apply H. vm_compute. reflexivity.
Defined.

(** With [enableProofGeneration: false] given to the constructor,
    [evaluatePaymentIntent] is the manual evaluation in every environment,
    with [proofGenerated = false]. *)
Theorem engine_proof_disabled_is_manual :
  forall (d : string) (arg : ZkVMPolicyEngine.ZkVMConfigArg)
         (env : ZkVMPolicyEngine.Env) (i : ZkVMPolicyEngine.PaymentIntent)
         (p : ZkVMPolicyEngine.PolicyRules) (c w : Z),
    ZkVMPolicyEngine.argEnableProofGeneration arg = Some false ->
    ZkVMPolicyEngine.evaluatePaymentIntent (ZkVMPolicyEngine.makeConfig d arg) env i p c w
    = ZkVMPolicyEngine.withProof
        (ZkVMPolicyEngine.evaluateManually (ZkVMPolicyEngine.localOffset env) i p c w)
        false (ZkVMPolicyEngine.elapsed env).
Proof.
  intros d arg env i p c w H.
  unfold ZkVMPolicyEngine.evaluatePaymentIntent, ZkVMPolicyEngine.makeConfig.
  cbn [ZkVMPolicyEngine.enableProofGeneration]. rewrite H.
  destruct (ZkVMPolicyEngine.hostBinaryExists env); reflexivity.
Qed.

Definition engineEnvWith (out : string) : ZkVMPolicyEngine.Env :=
  {| ZkVMPolicyEngine.localOffset := 0; ZkVMPolicyEngine.hostBinaryExists := true;
     ZkVMPolicyEngine.inputFileWritten := true;
     ZkVMPolicyEngine.hostExec := ExecResolves out "";
     ZkVMPolicyEngine.elapsed := 7 |}.

Definition disabledArg : ZkVMPolicyEngine.ZkVMConfigArg :=
  {| ZkVMPolicyEngine.argHostBinaryPath := None; ZkVMPolicyEngine.argTimeout := None;
     ZkVMPolicyEngine.argEnableProofGeneration := Some false |}.

Lemma engine_proof_disabled_is_manual_witness :
  ZkVMPolicyEngine.proofGenerated
    (ZkVMPolicyEngine.evaluatePaymentIntent
       (ZkVMPolicyEngine.makeConfig "host" disabledArg)
       (engineEnvWith "Approved: true")
       (Samples.engineIntent 1000 "Acme" Samples.tuesday10)
       ZkVMPolicyEngine.getDefaultPolicy 0 0) = false.
Proof.
  rewrite (engine_proof_disabled_is_manual "host" disabledArg
             (engineEnvWith "Approved: true")
             (Samples.engineIntent 1000 "Acme" Samples.tuesday10)
             ZkVMPolicyEngine.getDefaultPolicy 0 0 eq_refl).
  reflexivity.
Defined.

(** When the host binary runs and exits normally, the result of
    [evaluatePaymentIntent] is the parsed output alone: it does not depend
    on the intent, the policy or the spending totals at all (the prepared
    input file is never handed to the binary). *)
Theorem engine_proof_path_ignores_request :
  forall (config : ZkVMPolicyEngine.ZkVMConfig) (env : ZkVMPolicyEngine.Env)
         (out err : string),
    ZkVMPolicyEngine.hostBinaryExists env = true ->
    ZkVMPolicyEngine.enableProofGeneration config = true ->
    ZkVMPolicyEngine.inputFileWritten env = true ->
    ZkVMPolicyEngine.hostExec env = ExecResolves out err ->
    forall (i i' : ZkVMPolicyEngine.PaymentIntent)
           (p p' : ZkVMPolicyEngine.PolicyRules) (c w c' w' : Z),
      ZkVMPolicyEngine.evaluatePaymentIntent config env i p c w
      = ZkVMPolicyEngine.evaluatePaymentIntent config env i' p' c' w' /\
      ZkVMPolicyEngine.evaluatePaymentIntent config env i p c w
      = ZkVMPolicyEngine.withProof (ZkVMPolicyEngine.executeZkVMHost out) true
          (ZkVMPolicyEngine.elapsed env).
Proof.
  intros config env out err H1 H2 H3 H4 i i' p p' c w c' w'.
  unfold ZkVMPolicyEngine.evaluatePaymentIntent. rewrite H1, H2, H3, H4.
  split; reflexivity.
Qed.

Lemma engine_proof_path_ignores_request_witness :
  ZkVMPolicyEngine.evaluatePaymentIntent Samples.engineConfig
    (engineEnvWith "Approved: true")
    (Samples.engineIntent 1000 "Acme" Samples.tuesday10)
    ZkVMPolicyEngine.getDefaultPolicy 0 0
  = ZkVMPolicyEngine.evaluatePaymentIntent Samples.engineConfig
    (engineEnvWith "Approved: true")
    (Samples.engineIntent 99999999 "suspicious-vendor.com" Samples.saturday22)
    ZkVMPolicyEngine.getDefaultPolicy 10000000 10000000.
Proof.
  destruct (engine_proof_path_ignores_request Samples.engineConfig
              (engineEnvWith "Approved: true") "Approved: true" ""
              eq_refl eq_refl eq_refl eq_refl
              (Samples.engineIntent 1000 "Acme" Samples.tuesday10)
              (Samples.engineIntent 99999999 "suspicious-vendor.com" Samples.saturday22)
              ZkVMPolicyEngine.getDefaultPolicy ZkVMPolicyEngine.getDefaultPolicy
              0 0 10000000 10000000) as [H _].
  exact H.
Defined.

(** [evaluateManually] rejects every payment under a policy with an empty
    allow list (at least one violation, risk at least 25); so under such a
    policy, for instance [getDefaultPolicy()], [evaluatePaymentIntent]
    approves only through a zkVM run. *)
Theorem engine_empty_allowlist_needs_proof :
  forall (p : ZkVMPolicyEngine.PolicyRules),
    ZkVMPolicyEngine.allowedVendors p = [] ->
    (forall (tz : Z) (i : ZkVMPolicyEngine.PaymentIntent) (c w : Z),
       let v := ZkVMPolicyEngine.evaluateManually tz i p c w in
       ZkVMPolicyEngine.vApproved v = false /\
       1 <= ZkVMPolicyEngine.vViolationCount v /\
       25 <= ZkVMPolicyEngine.vRiskScore v) /\
    (forall (config : ZkVMPolicyEngine.ZkVMConfig) (env : ZkVMPolicyEngine.Env)
            (i : ZkVMPolicyEngine.PaymentIntent) (c w : Z),
       ZkVMPolicyEngine.approved (ZkVMPolicyEngine.evaluatePaymentIntent config env i p c w)
         = true ->
       ZkVMPolicyEngine.proofGenerated
         (ZkVMPolicyEngine.evaluatePaymentIntent config env i p c w) = true).
Proof.
  intros p Hp.
  assert (Hm : forall (tz : Z) (i : ZkVMPolicyEngine.PaymentIntent) (c w : Z),
             let v := ZkVMPolicyEngine.evaluateManually tz i p c w in
             ZkVMPolicyEngine.vApproved v = false /\
             1 <= ZkVMPolicyEngine.vViolationCount v /\
             25 <= ZkVMPolicyEngine.vRiskScore v).
  { intros tz i c w v. unfold v, ZkVMPolicyEngine.evaluateManually. rewrite Hp.
    change (JS.arrIncludes [] (ZkVMPolicyEngine.vendor i)) with false.
    unfold ZkVMPolicyEngine.bump. cbv zeta. cbn [negb].
    repeat match goal with |- context [if ?b then _ else _] => destruct b end;
      cbn [fst snd ZkVMPolicyEngine.vViolationCount ZkVMPolicyEngine.vRiskScore
           ZkVMPolicyEngine.vApproved];
      repeat split; lia. }
  split; [exact Hm|].
  intros config env i c w.
  destruct (Hm (ZkVMPolicyEngine.localOffset env) i c w) as [Ha _].
  unfold ZkVMPolicyEngine.evaluatePaymentIntent.
  destruct (ZkVMPolicyEngine.hostBinaryExists env),
    (ZkVMPolicyEngine.enableProofGeneration config),
    (ZkVMPolicyEngine.inputFileWritten env); cbn [negb];
    try (destruct (ZkVMPolicyEngine.hostExec env));
    unfold ZkVMPolicyEngine.withProof;
    cbn [ZkVMPolicyEngine.approved ZkVMPolicyEngine.proofGenerated];
    try rewrite Ha; congruence.
Qed.

Lemma engine_empty_allowlist_needs_proof_witness :
  ZkVMPolicyEngine.vApproved
    (ZkVMPolicyEngine.evaluateManually 0
       (Samples.engineIntent 1000 "Acme" Samples.tuesday10)
       ZkVMPolicyEngine.getDefaultPolicy 0 0) = false.
Proof.
  destruct (engine_empty_allowlist_needs_proof ZkVMPolicyEngine.getDefaultPolicy eq_refl)
    as [Hm _].
  apply (Hm 0 (Samples.engineIntent 1000 "Acme" Samples.tuesday10) 0 0).
Defined.

(** [executeZkVMHost] approves exactly when some line of the output
    contains ["Approved: true"]; in particular an output that does not
    contain ["Approved: true"] is never approved. *)
Theorem host_output_approval_lines :
  forall (out : string),
    ZkVMPolicyEngine.vApproved (ZkVMPolicyEngine.executeZkVMHost out)
      = existsb (fun l => JS.includes l "Approved: true") (JS.splitOn JS.newline out) /\
    (JS.includes out "Approved: true" = false ->
     ZkVMPolicyEngine.vApproved (ZkVMPolicyEngine.executeZkVMHost out) = false).
Proof.
  intros out.
  assert (E : ZkVMPolicyEngine.vApproved (ZkVMPolicyEngine.executeZkVMHost out)
              = existsb (fun l => JS.includes l "Approved: true")
                  (JS.splitOn JS.newline out))
    by (unfold ZkVMPolicyEngine.executeZkVMHost;
        rewrite MiscFacts.fold_scanLine_approved_iff; reflexivity).
  split; [exact E|]. apply MiscFacts.host_output_not_approved.
Qed.

Lemma host_output_approval_lines_witness :
  ZkVMPolicyEngine.vApproved (ZkVMPolicyEngine.executeZkVMHost "Risk Score: 0") = false.
Proof.
  destruct (host_output_approval_lines "Risk Score: 0") as [_ H].
  apply H. reflexivity.
Defined.

(** The two parsers of the zkVM output disagree on every output that
    mentions neither verdict: [executeZkVMWithParams] reads it as an
    approval, [executeZkVMHost] as a rejection. *)
Theorem zkvm_parsers_disagree :
  forall (out : string),
    JS.includes out "Approved: true" = false ->
    JS.includes out "Approved: false" = false ->
    zApproved (executeZkVMWithParams out) = Some true /\
    ZkVMPolicyEngine.vApproved (ZkVMPolicyEngine.executeZkVMHost out) = false.
Proof.
  intros out Ht Hf. split.
  - unfold executeZkVMWithParams. cbn [zApproved]. rewrite Hf. reflexivity.
  - apply MiscFacts.host_output_not_approved, Ht.
Qed.

Lemma zkvm_parsers_disagree_witness :
  zApproved (executeZkVMWithParams "Segmentation fault") = Some true /\
  ZkVMPolicyEngine.vApproved (ZkVMPolicyEngine.executeZkVMHost "Segmentation fault")
    = false.
Proof. apply zkvm_parsers_disagree; reflexivity. Defined.

(** The constructor of [ZkVMPolicyEngine] never yields a timeout of 0,
    turns proof generation off only on an explicit [false], and falls back
    to the default host path on an absent or empty path. *)
Theorem makeConfig_defaults :
  forall (d : string) (arg : ZkVMPolicyEngine.ZkVMConfigArg),
    let c := ZkVMPolicyEngine.makeConfig d arg in
    ZkVMPolicyEngine.timeout c <> 0 /\
    (ZkVMPolicyEngine.enableProofGeneration c = false <->
     ZkVMPolicyEngine.argEnableProofGeneration arg = Some false) /\
    (ZkVMPolicyEngine.hostBinaryPath c = "" -> d = "") /\
    (ZkVMPolicyEngine.argHostBinaryPath arg = None \/
     ZkVMPolicyEngine.argHostBinaryPath arg = Some "" ->
     ZkVMPolicyEngine.hostBinaryPath c = d).
Proof.
  intros d arg c. unfold c, ZkVMPolicyEngine.makeConfig.
  cbn [ZkVMPolicyEngine.timeout ZkVMPolicyEngine.enableProofGeneration
       ZkVMPolicyEngine.hostBinaryPath].
  repeat split.
  - destruct (ZkVMPolicyEngine.argTimeout arg) as [t|]; [|discriminate].
    destruct (Z.eqb_spec t 0); [discriminate|exact n].
  - destruct (ZkVMPolicyEngine.argEnableProofGeneration arg) as [[]|];
      intros H; congruence.
  - intros H. rewrite H. reflexivity.
  - destruct (ZkVMPolicyEngine.argHostBinaryPath arg) as [q|]; [|auto].
    destruct (String.eqb_spec q ""); [auto|]. intros ->. contradiction.
  - intros [H|H]; rewrite H; reflexivity.
Qed.

Lemma makeConfig_defaults_witness :
  ZkVMPolicyEngine.hostBinaryPath (ZkVMPolicyEngine.makeConfig "host" disabledArg)
    = "host".
Proof.
  destruct (makeConfig_defaults "host" disabledArg) as (_ & _ & _ & H).
  apply H. left. reflexivity.
Defined.

Definition sampleAI : AIAnalysisResult :=
  {| aiType := INVOICE;
     extractedData := {| exAmount := Some 5000; vendorName := Some "東京電力";
                         vendorEmail := None; exDueDate := None;
                         exInvoiceNumber := None; title := None; startDate := None;
                         endDate := None; location := None |};
     reasoning := "" |}.

Definition sampleGenerated : PaymentIntent :=
  {| amount := 5000; recipient := "0x0000000000000000000000000000000000000000";
     vendor := "東京電力"; category := "utilities"; timestamp := 1704189600;
     aiExtracted := {| invoiceNumber := None; dueDate := None;
                       originalEmail := "mail" |} |}.

(** An intent produced by [generateIntentFromAI] comes from an invoice with
    a non-zero amount (negative amounts pass), carries that amount and the
    time in seconds, and has one of the four categories of
    [categorizeVendor]; hence the [category == "high-risk"] condition is
    false for every generated intent. *)
Theorem generated_intent_shape :
  forall (ai : AIAnalysisResult) (email : string) (nowMs : Z) (i : PaymentIntent),
    generateIntentFromAI ai email nowMs = Some i ->
    aiType ai = INVOICE /\
    exAmount (extractedData ai) = Some (amount i) /\ amount i <> 0 /\
    timestamp i = nowMs / 1000 /\
    In (category i) ["utilities"; "software"; "consulting"; "other"] /\
    forall (tz : Z) (p : DynamicPolicy),
      evaluateCondition tz ("category == " ++ JS.dquote ++ "high-risk" ++ JS.dquote)
        i p = JS.JBool false.
Proof.
  intros ai email nowMs i H. unfold generateIntentFromAI in H.
  destruct (aiType ai); try discriminate.
  destruct (exAmount (extractedData ai)) as [a|]; [|discriminate].
  destruct (Z.eqb_spec a 0) as [_|Ha]; [discriminate|].
  injection H as <-. cbn [amount timestamp category].
  pose proof (MiscFacts.categorizeVendor_cases
                (orElse (vendorName (extractedData ai)) "")) as Hc.
  repeat split; try exact Ha; try exact Hc.
  intros tz p. unfold evaluateCondition, safeEvaluateCondition. cbn [category].
  destruct Hc as [E|[E|[E|[E|[]]]]]; rewrite <- E; reflexivity.
Qed.

Lemma generated_intent_shape_witness :
  generateIntentFromAI sampleAI "mail" 1704189600000 = Some sampleGenerated /\
  evaluateCondition 0 ("category == " ++ JS.dquote ++ "high-risk" ++ JS.dquote)
    sampleGenerated Samples.defaultPolicy = JS.JBool false.
Proof.
  assert (H : generateIntentFromAI sampleAI "mail" 1704189600000 = Some sampleGenerated)
    by reflexivity.
  split; [exact H|].
  destruct (generated_intent_shape sampleAI "mail" 1704189600000 sampleGenerated H)
    as (_ & _ & _ & _ & _ & Hc).
  apply Hc.
Defined.

(** [categorizeVendor] ignores the case of ASCII letters: a vendor name and
    its lower-case form fall into the same category. *)
Theorem categorizeVendor_case_insensitive :
  forall (s : string), categorizeVendor (JS.toLowerCase s) = categorizeVendor s.
Proof. intros s. unfold categorizeVendor. by rewrite MiscFacts.toLowerCase_idem. Qed.

(** [createWeekdayMask] gives a 7-bit mask whose bit [i] is set exactly
    when [i] is a weekday in [0..6] listed in the policy; other entries are
    dropped. *)
Theorem create_weekday_mask_bits :
  forall (ws : list Z),
    let m := createWeekdayMask ws in
    0 <= m < 128 /\
    forall (i : Z), 0 <= i -> Z.testbit m i = Z.leb i 6 && existsb (Z.eqb i) ws.
Proof.
  intros ws m. unfold m. rewrite MaskFacts.createWeekdayMask_fold.
  destruct (MaskFacts.maskFold_spec (fun d => Z.leb 0 d && Z.leb d 6) 7 ws 0)
    as [B T].
  - lia.
  - simpl. lia.
  - intros d _ Hd. apply andb_prop in Hd as [H1 H2].
    apply Z.leb_le in H1. apply Z.leb_le in H2. lia.
  - split; [exact B|]. intros i Hi. rewrite T by exact Hi.
    rewrite Z.testbit_0_l. simpl. apply MaskFacts.existsb_create_bit, Hi.
Qed.

Lemma create_weekday_mask_bits_witness :
  Z.testbit (createWeekdayMask [1; 2; 3; 4; 5; 7]) 3 = true.
Proof.
  destruct (create_weekday_mask_bits [1; 2; 3; 4; 5; 7]) as [_ T].
  rewrite T by lia. reflexivity.
Defined.

(** The weekday mask of [ZkVMPolicyEngine.prepareInputData] ([day < 8])
    agrees with [createWeekdayMask] except for bit 7, which it sets when 7
    is listed although 7 is no [getDay()] value; it fits in 8 bits for
    non-negative days. *)
Theorem engine_weekday_mask_bit7 :
  forall (ws : list Z),
    forallb (Z.leb 0) ws = true ->
    let m := ZkVMPolicyEngine.weekdayMaskOf ws in
    0 <= m < 256 /\
    forall (i : Z), 0 <= i ->
      Z.testbit m i = Z.testbit (createWeekdayMask ws) i || (Z.eqb i 7 && existsb (Z.eqb 7) ws).
Proof.
  intros ws Hws m. unfold m. rewrite MaskFacts.weekdayMaskOf_fold.
  destruct (MaskFacts.maskFold_spec (fun d => Z.ltb d 8) 8 ws 0) as [B T].
  - lia.
  - simpl. lia.
  - intros d Hin Hd. apply Z.ltb_lt in Hd.
    rewrite forallb_forall in Hws. specialize (Hws d Hin). apply Z.leb_le in Hws. lia.
  - split; [exact B|]. intros i Hi. rewrite T by exact Hi.
    rewrite MaskFacts.createWeekdayMask_fold.
    destruct (MaskFacts.maskFold_spec (fun d => Z.leb 0 d && Z.leb d 6) 7 ws 0)
      as [_ T7].
    + lia.
    + simpl. lia.
    + intros d _ Hd. apply andb_prop in Hd as [H1 H2].
      apply Z.leb_le in H1. apply Z.leb_le in H2. lia.
    + rewrite T7 by exact Hi. rewrite Z.testbit_0_l. simpl.
      apply MaskFacts.existsb_engine_bit, Hi.
Qed.

Lemma engine_weekday_mask_bit7_witness :
  forallb (Z.leb 0) [1; 2; 3; 4; 5; 7] = true /\
  Z.testbit (ZkVMPolicyEngine.weekdayMaskOf [1; 2; 3; 4; 5; 7]) 7 = true.
Proof.
  split; [reflexivity|].
  destruct (engine_weekday_mask_bit7 [1; 2; 3; 4; 5; 7] eq_refl) as [_ T].
  rewrite T by lia. reflexivity.
Defined.

(** Of the allowed vendors, only the first reaches the zkVM: the parameter
    file of [createZkVMParamsFile] and the input of [prepareInputData] are
    the same for any two allow lists with the same first entry. *)
Theorem zkvm_inputs_first_allowed_vendor_only :
  forall (hash : string -> Z) (v : string) (vs vs' : list string),
    (forall (i : PaymentIntent) (p : DynamicPolicy) (now : Z),
       createZkVMParams hash i (updRules (setAllowedVendors (v :: vs)) p) now
       = createZkVMParams hash i (updRules (setAllowedVendors (v :: vs')) p) now) /\
    (forall (i : ZkVMPolicyEngine.PaymentIntent) (p : ZkVMPolicyEngine.PolicyRules)
            (c w : Z),
       ZkVMPolicyEngine.prepareInputData hash i (setEngineAllowedVendors (v :: vs) p) c w
       = ZkVMPolicyEngine.prepareInputData hash i (setEngineAllowedVendors (v :: vs') p) c w).
Proof. intros hash v vs vs'. split; intros; reflexivity. Qed.

(** A condition outside the seven whitelisted strings is truthy exactly
    when it is ["constructor"] or ["toString"], the two members of
    [Object.prototype] whose call returns; every other unlisted string,
    including the other inherited members (whose call throws), is false. *)
Theorem unlisted_condition_truthy_iff :
  forall (tz : Z) (c : string) (i : PaymentIntent) (p : DynamicPolicy),
    safeConditionsOwn c = None ->
    (JS.truthy (evaluateCondition tz c i p) = true <->
     c = "constructor" \/ c = "toString").
Proof.
  intros tz c i p H. unfold evaluateCondition, safeEvaluateCondition. rewrite H.
  destruct (JS.isProtoKey c) eqn:Hk.
  - unfold JS.callProtoMember.
    destruct (String.eqb_spec c "constructor") as [->|H1].
    + split; [auto|reflexivity].
    + destruct (String.eqb_spec c "toString") as [->|H2].
      * split; [auto|reflexivity].
      * cbn. split; [discriminate|]. intros [E|E]; contradiction.
  - cbn. split; [discriminate|].
    intros [->| ->]; discriminate Hk.
Qed.

Lemma unlisted_condition_truthy_iff_witness :
  safeConditionsOwn "toString" = None /\
  JS.truthy (evaluateCondition 0 "toString"
    (Samples.intentOf 1000 "Acme" "other" Samples.tuesday10) Samples.defaultPolicy) = true.
Proof.
  split; [reflexivity|].
  apply (unlisted_condition_truthy_iff 0 "toString"
           (Samples.intentOf 1000 "Acme" "other" Samples.tuesday10)
           Samples.defaultPolicy eq_refl).
  right. reflexivity.
Defined.

End Extras.
